(** * Namespace provider (packages/namespace/src/index.ts)

    A shallow embedding of the Namespace sandbox provider: credential
    resolution, the authenticated transport helper, the four lifecycle
    operations and the command executor, followed by the properties the
    specification states about them.

    JavaScript values are an inductive type, promises are computations in a
    small state-and-exception monad, and everything the module obtains from
    its host (process environment, file system, [fetch], the clock, the
    JSON codec and the imported [escapeShellArg]) is a field of [Host]. *)

From Stdlib Require Import String Ascii List ZArith Lia Bool DecimalString.
Import ListNotations.
Local Open Scope string_scope.
Set Warnings "-register-all".

(** ** JavaScript values *)

(** Values that can come out of [JSON.parse], plus [undefined].  Numbers are
    the integers: the module never computes with a response number, it only
    tests them for truthiness and passes them on.  They stand for integers
    of magnitude below 10^21, the ones JavaScript prints as plain decimal
    digits; fractions and larger numbers are outside the model. *)
Inductive JsVal : Type :=
| JUndefined
| JNull
| JBool (b : bool)
| JNum (n : Z)
| JStr (s : string)
| JArr (xs : list JsVal)
| JObj (fields : list (string * JsVal)).

(** An optional, typed field ([x?: T]); [null] is kept apart from
    [undefined] although [||], [??] and [?.] treat the two alike. *)
Inductive opt (A : Type) : Type :=
| undefined
| null
| def (a : A).
Arguments undefined {A}.
Arguments null {A}.
Arguments def {A} a.

(** What [throw] can carry: an [Error] instance with its message, or any
    other value (for which [error instanceof Error] is false). *)
Inductive Thrown : Type :=
| JsError (message : string)
| ThrownValue (v : JsVal).

Inductive Result (A : Type) : Type :=
| Ok (a : A)
| Throw (e : Thrown).
Arguments Ok {A} a.
Arguments Throw {A} e.

(** [new Date(...)]: from a clock reading, or from a response value. *)
Inductive JsDate : Type :=
| DateOfMs (ms : Z)
| DateOfValue (v : JsVal).

Module Js.

(** [!!v] *)
Definition truthy (v : JsVal) : bool :=
  match v with
  | JUndefined | JNull => false
  | JBool b => b
  | JNum n => negb (n =? 0)%Z
  | JStr s => negb (s =? "")
  | JArr _ | JObj _ => true
  end.

(** [v === undefined || v === null] *)
Definition nullish (v : JsVal) : bool :=
  match v with
  | JUndefined | JNull => true
  | _ => false
  end.

(** [a || b] *)
Definition or (a b : JsVal) : JsVal := if truthy a then a else b.

(** [a ?? b] *)
Definition coalesce (a b : JsVal) : JsVal := if nullish a then b else a.

Definition of_Z (n : Z) : string := NilZero.string_of_int (Z.to_int n).

(** [String(v)], which is also what a template literal does to [v]. *)
Fixpoint toString (v : JsVal) : string :=
  match v with
  | JUndefined => "undefined"
  | JNull => "null"
  | JBool true => "true"
  | JBool false => "false"
  | JNum n => of_Z n
  | JStr s => s
  | JArr xs =>
      String.concat ","
        (map (fun x => match x with
                       | JUndefined | JNull => ""
                       | _ => toString x
                       end) xs)
  | JObj _ => "[object Object]"
  end.

Fixpoint lookup (k : string) (fields : list (string * JsVal)) : JsVal :=
  match fields with
  | [] => JUndefined
  | (k', v) :: rest => if k' =? k then v else lookup k rest
  end.

(** [v.k] for the property names this module reads (none of them is a
    built-in property of a string or an array): a [TypeError] on
    [undefined] and [null], the field of an object, [undefined] on
    anything else. *)
Definition get (v : JsVal) (k : string) : Result JsVal :=
  match v with
  | JUndefined | JNull =>
      Throw (JsError ("Cannot read properties of " ++ toString v
                      ++ " (reading '" ++ k ++ "')"))
  | JObj fields => Ok (lookup k fields)
  | _ => Ok JUndefined
  end.

(** [v?.k] *)
Definition get_opt (v : JsVal) (k : string) : JsVal :=
  match v with
  | JObj fields => lookup k fields
  | _ => JUndefined
  end.

(** [s.includes(sub)] *)
Fixpoint includes (sub s : string) : bool :=
  prefix sub s ||
  match s with
  | EmptyString => false
  | String _ rest => includes sub rest
  end.

(** [error instanceof Error ? error.message : String(error)] *)
Definition describe (e : Thrown) : string :=
  match e with
  | JsError m => m
  | ThrownValue v => toString v
  end.

Definition of_opt_string (o : opt string) : JsVal :=
  match o with
  | undefined => JUndefined
  | null => JNull
  | def s => JStr s
  end.

Definition of_opt_Z (o : opt Z) : JsVal :=
  match o with
  | undefined => JUndefined
  | null => JNull
  | def n => JNum n
  end.

(** A [Record<string, string>] as the object it is. *)
Definition of_record (r : list (string * string)) : JsVal :=
  JObj (map (fun kv => (fst kv, JStr (snd kv))) r).

(** Object spread [{...base, ...extra}] on string-valued records: a key of
    [extra] overwrites in place, a new key is appended. *)
Fixpoint assign1 (k v : string) (base : list (string * string))
  : list (string * string) :=
  match base with
  | [] => [(k, v)]
  | (k', v') :: rest =>
      if k' =? k then (k', v) :: rest else (k', v') :: assign1 k v rest
  end.

Definition spread (base extra : list (string * string))
  : list (string * string) :=
  fold_left (fun acc kv => assign1 (fst kv) (snd kv) acc) extra base.

End Js.

(** ** The host *)

Record Request : Type := mkRequest {
  url : string;
  method : string;
  headers : list (string * string);
  body : string
}.

(** What [fetch] resolves to; [json] is the outcome of [response.json()]. *)
Record Response : Type := mkResponse {
  ok : bool;
  status : Z;
  statusText : string;
  json : Result JsVal
}.

Record Host : Type := mkHost {
  (** [process.env]; [None] when [process] is not defined or has no [env] *)
  process_env : option (string -> option string);
  (** [fs.readFile(path, 'utf8')] *)
  fs_readFile : string -> Result string;
  JSON_parse : string -> Result JsVal;
  JSON_stringify : JsVal -> string;
  (** [JSON.stringify(v, null, 2)] *)
  JSON_stringify_indented : JsVal -> string;
  (** global [fetch]: a rejection, or a response *)
  fetch : Request -> Result Response;
  (** the successive readings of [Date.now()] *)
  Date_now : nat -> Z;
  (** [new Date(ms).toISOString()] *)
  Date_toISOString : Z -> string;
  (** [escapeShellArg], imported from [@computesdk/provider] *)
  escapeShellArg : string -> string;
  (** [Buffer.prototype.toString()] on bytes that are not all ASCII
      (UTF-8 decoding with replacement characters) *)
  utf8_decode_lossy : string -> string;
  (** [Buffer.from(v, 'base64').toString()] for a [v] that is not a string *)
  Buffer_from_nonstring : JsVal -> Result string
}.

(** ** Promises: state and exceptions *)

(** What a call leaves behind: the [console.warn] lines, the requests handed
    to [fetch], and how many times the clock was read. *)
Record State : Type := mkState {
  warnings : list string;
  requests : list Request;
  ticks : nat
}.

Definition initial : State := mkState [] [] 0.

Definition Async (A : Type) : Type := State -> Result A * State.

Definition ret {A} (a : A) : Async A := fun st => (Ok a, st).

Definition throw {A} (e : Thrown) : Async A := fun st => (Throw e, st).

Definition bind {A B} (m : Async A) (k : A -> Async B) : Async B :=
  fun st =>
    match m st with
    | (Ok a, st') => k a st'
    | (Throw e, st') => (Throw e, st')
    end.

(** [try { m } catch (error) { handler(error) }] *)
Definition try_catch {A} (m : Async A) (handler : Thrown -> Async A)
  : Async A :=
  fun st =>
    match m st with
    | (Ok a, st') => (Ok a, st')
    | (Throw e, st') => handler e st'
    end.

Definition lift {A} (r : Result A) : Async A := fun st => (r, st).

Notation "x <- m ;; k" := (bind m (fun x => k))
  (at level 61, m at next level, right associativity).

Notation "m ;;; k" := (bind m (fun _ => k))
  (at level 61, right associativity).

Definition with_warning (line : string) (st : State) : State :=
  mkState (warnings st ++ [line]) (requests st) (ticks st).

Definition with_request (rq : Request) (st : State) : State :=
  mkState (warnings st) (requests st ++ [rq]) (ticks st).

Definition tick (st : State) : State :=
  mkState (warnings st) (requests st) (S (ticks st)).

Definition console_warn (line : string) : Async unit :=
  fun st => (Ok tt, with_warning line st).

Definition call_fetch (h : Host) (rq : Request) : Async Response :=
  fun st => (fetch h rq, with_request rq st).

Definition now (h : Host) : Async Z :=
  fun st => (Ok (Date_now h (ticks st)), tick st).

(** ** Node's base64 decoder

    [Buffer.from(s, 'base64')] on a string never throws: characters outside
    the alphabet (standard or URL-safe) are skipped, the first [=] ends the
    input, every complete group of four sextets gives three bytes and a
    trailing group of two or three gives one or two.  A string is read
    character by character as its bytes, which is what Node does for text
    within U+0000..U+00FF; characters beyond that are outside the model. *)
Module Base64.

Definition unbase64 (c : ascii) : option N :=
  let n := N_of_ascii c in
  (if (65 <=? n) && (n <=? 90) then Some (n - 65)
   else if (97 <=? n) && (n <=? 122) then Some (n - 71)
   else if (48 <=? n) && (n <=? 57) then Some (n + 4)
   else if (n =? 43) || (n =? 45) then Some 62
   else if (n =? 47) || (n =? 95) then Some 63
   else None)%N.

Fixpoint sextets (s : string) : list N :=
  match s with
  | EmptyString => []
  | String c rest =>
      if (N_of_ascii c =? 61)%N then []
      else match unbase64 c with
           | Some v => v :: sextets rest
           | None => sextets rest
           end
  end.

Definition byte1 (a b : N) : N := ((a * 4 + b / 16) mod 256)%N.
Definition byte2 (b c : N) : N := ((b * 16 + c / 4) mod 256)%N.
Definition byte3 (c d : N) : N := ((c * 64 + d) mod 256)%N.

Fixpoint bytes (l : list N) : list N :=
  match l with
  | a :: b :: c :: d :: rest =>
      byte1 a b :: byte2 b c :: byte3 c d :: bytes rest
  | [a; b; c] => [byte1 a b; byte2 b c]
  | [a; b] => [byte1 a b]
  | _ => []
  end.

Definition decode (s : string) : list N := bytes (sextets s).

Definition is_ascii (b : N) : bool := (b <? 128)%N.

Definition string_of_bytes (bs : list N) : string :=
  string_of_list_ascii (map ascii_of_N bs).

End Base64.

(** [Buffer.from(s, 'base64').toString()] for a string [s] *)
Definition Buffer_base64_toString (h : Host) (s : string) : string :=
  let bs := Base64.decode s in
  if forallb Base64.is_ascii bs then Base64.string_of_bytes bs
  else utf8_decode_lossy h (Base64.string_of_bytes bs).

(** ** Types of the module *)

Module NamespaceConfig.
Record t : Type := mk {
  token : opt string;
  tokenFile : opt string;
  virtualCpu : opt Z;
  memoryMegabytes : opt Z;
  machineArch : opt string;
  os : opt string;
  documentedPurpose : opt string;
  destroyReason : opt string;
  targetContainerName : opt string
}.
End NamespaceConfig.

Module NamespaceSandbox.
Record t : Type := mk {
  instanceId : JsVal;
  name : string;
  commandServiceEndpoint : JsVal;
  token : JsVal;
  targetContainerName : string;
  createdAt : JsDate
}.
End NamespaceSandbox.

(** The fields of [CreateSandboxOptions] and [RunCommandOptions] (declared
    in [@computesdk/provider]) that this module reads.  A
    [Record<string, string>] is the list of its entries, in the order
    [Object.entries] gives them. *)
Module CreateSandboxOptions.
Record t : Type := mk {
  image : opt string;
  envs : opt (list (string * string))
}.
End CreateSandboxOptions.

Module RunCommandOptions.
Record t : Type := mk {
  env : opt (list (string * string));
  cwd : opt string;
  background : opt bool
}.
End RunCommandOptions.

Module RequestInit.
Record t : Type := mk {
  method : string;
  body : string;
  headers : list (string * string)
}.
End RequestInit.

Record Credentials : Type := mkCredentials { cred_token : JsVal }.

(** [{ sandbox, sandboxId }] *)
Record SandboxEntry : Type := mkEntry {
  sandbox : NamespaceSandbox.t;
  sandboxId : JsVal
}.

Record CommandResult : Type := mkCommandResult {
  stdout : JsVal;
  stderr : JsVal;
  exitCode : JsVal;
  durationMs : Z
}.

Record SandboxInfo : Type := mkInfo {
  info_id : JsVal;
  info_provider : string;
  info_runtime : string;
  info_status : string;
  info_createdAt : JsDate;
  info_timeout : Z;
  info_metadata : list (string * JsVal)
}.

(** Typed forms of [o || d] and [o ?? d] for an optional field [o]. *)
Definition or_default {A} (truthyA : A -> bool) (o : opt A) (d : A) : A :=
  match o with
  | def a => if truthyA a then a else d
  | _ => d
  end.

Definition or_string : opt string -> string -> string :=
  or_default (fun s => negb (s =? "")).

Definition or_Z : opt Z -> Z -> Z :=
  or_default (fun n => negb (n =? 0)%Z).

Definition coalesce_default {A} (o : opt A) (d : A) : A :=
  match o with
  | def a => a
  | _ => d
  end.

(** [o?.field] for an optional record [o] *)
Definition opt_field {R A} (o : opt R) (field : R -> opt A) : opt A :=
  match o with
  | def r => field r
  | _ => undefined
  end.

Module API_ENDPOINTS.
Definition CREATE_INSTANCE :=
  "/namespace.cloud.compute.v1beta.ComputeService/CreateInstance".
Definition DESCRIBE_INSTANCE :=
  "/namespace.cloud.compute.v1beta.ComputeService/DescribeInstance".
Definition LIST_INSTANCES :=
  "/namespace.cloud.compute.v1beta.ComputeService/ListInstances".
Definition DESTROY_INSTANCE :=
  "/namespace.cloud.compute.v1beta.ComputeService/DestroyInstance".
End API_ENDPOINTS.

Module COMMAND_SERVICE.
Definition RUN_COMMAND_SYNC :=
  "/namespace.cloud.compute.v1beta.CommandService/RunCommandSync".
End COMMAND_SERVICE.

(** ** Credential resolution *)

Definition missing_token_message : string :=
  "Missing Namespace token. Provide token in config, set NSC_TOKEN, or set NSC_TOKEN_FILE environment variable (or provide tokenFile in config).".

Definition no_bearer_token_message (filePath : string) : string :=
  "Token file " ++ filePath ++ " does not contain a bearer_token".

Definition loadTokenFromFile (h : Host) (filePath : string) : Async JsVal :=
  content <- lift (fs_readFile h filePath) ;;
  tokenJson <- lift (JSON_parse h content) ;;
  bearer_token <- lift (Js.get tokenJson "bearer_token") ;;
  if negb (Js.truthy bearer_token)
  then throw (JsError (no_bearer_token_message filePath))
  else ret bearer_token.

(** [typeof process !== 'undefined' && process.env?.NAME] *)
Definition env_var (h : Host) (name : string) : JsVal :=
  match process_env h with
  | None => JBool false
  | Some env =>
      match env name with
      | Some s => JStr s
      | None => JUndefined
      end
  end.

Definition getAndValidateCredentials (h : Host) (config : NamespaceConfig.t)
  : Async Credentials :=
  let token :=
    Js.or (Js.or (Js.of_opt_string (NamespaceConfig.token config))
                 (env_var h "NSC_TOKEN"))
          (JStr "") in
  token <-
    (if negb (Js.truthy token) then
       let tokenFile :=
         Js.or (Js.or (Js.of_opt_string (NamespaceConfig.tokenFile config))
                      (env_var h "NSC_TOKEN_FILE"))
               (JStr "") in
       if Js.truthy tokenFile
       then loadTokenFromFile h (Js.toString tokenFile)
       else ret token
     else ret token) ;;
  if negb (Js.truthy token)
  then throw (JsError missing_token_message)
  else ret (mkCredentials token).

(** ** Transport *)

Definition handleApiErrors (response : JsVal) : Async unit :=
  error <- lift (Js.get response "error") ;;
  if Js.truthy error
  then throw (JsError ("Namespace API error: " ++ Js.toString error))
  else ret tt.

Definition default_baseUrl : string := "https://us.compute.namespaceapis.com".

(** The request [fetchNamespace] hands to [fetch]; [baseUrl] is
    [JUndefined] when the caller leaves the argument out. *)
Definition request_of (token : JsVal) (endpoint : string)
    (options : RequestInit.t) (baseUrl : JsVal) : Request :=
  let baseUrl :=
    match baseUrl with
    | JUndefined => JStr default_baseUrl
    | _ => baseUrl
    end in
  mkRequest (Js.toString baseUrl ++ endpoint)
    (RequestInit.method options)
    (Js.spread
       [("Content-Type", "application/json");
        ("Authorization", "Bearer " ++ Js.toString token)]
       (RequestInit.headers options))
    (RequestInit.body options).

Definition fetchNamespace (h : Host) (token : JsVal) (endpoint : string)
    (options : RequestInit.t) (baseUrl : JsVal) : Async JsVal :=
  response <- call_fetch h (request_of token endpoint options baseUrl) ;;
  if negb (ok response)
  then throw (JsError ("Namespace API error: " ++ Js.of_Z (status response)
                       ++ " " ++ statusText response))
  else
    data <- lift (json response) ;;
    handleApiErrors data ;;;
    ret data.

Definition post (body : string) : RequestInit.t :=
  RequestInit.mk "POST" body [].

(** ** The provider's methods *)

Module namespace.

Definition create_requestBody (h : Host) (config : NamespaceConfig.t)
    (options : opt CreateSandboxOptions.t) (containerName : string)
    (nowMs : Z) : JsVal :=
  let envs := opt_field options CreateSandboxOptions.envs in
  JObj
    [("shape",
      JObj
        [("virtual_cpu", JNum (or_Z (NamespaceConfig.virtualCpu config) 2));
         ("memory_megabytes",
          JNum (or_Z (NamespaceConfig.memoryMegabytes config) 4096));
         ("machine_arch",
          JStr (or_string (NamespaceConfig.machineArch config) "amd64"));
         ("os", JStr (or_string (NamespaceConfig.os config) "linux"))]);
     ("containers",
      JArr
        [JObj
           ([("name", JStr containerName);
             ("image_ref",
              JStr (coalesce_default
                      (opt_field options CreateSandboxOptions.image)
                      "ubuntu:latest"));
             ("args", JArr [JStr "sleep"; JStr "infinity"])]
            ++ match envs with
               | def ((_ :: _) as e) => [("environment", Js.of_record e)]
               | _ => []
               end)]);
     ("documented_purpose",
      JStr (or_string (NamespaceConfig.documentedPurpose config)
              "ComputeSDK sandbox"));
     ("deadline", JStr (Date_toISOString h (nowMs + 60 * 60 * 1000)))].

Definition create (h : Host) (config : NamespaceConfig.t)
    (options : opt CreateSandboxOptions.t) : Async SandboxEntry :=
  creds <- getAndValidateCredentials h config ;;
  let token := cred_token creds in
  let containerName :=
    or_string (NamespaceConfig.targetContainerName config) "main-container" in
  try_catch
    (nowMs <- now h ;;
     let requestBody := create_requestBody h config options containerName nowMs in
     responseData <-
       fetchNamespace h token API_ENDPOINTS.CREATE_INSTANCE
         (post (JSON_stringify h requestBody)) JUndefined ;;
     metadata <- lift (Js.get responseData "metadata") ;;
     if negb (Js.truthy (Js.get_opt metadata "instanceId"))
     then throw (JsError ("Instance ID is undefined. Full response object: "
                          ++ JSON_stringify_indented h responseData))
     else
       instanceId <- lift (Js.get metadata "instanceId") ;;
       extendedMetadata <- lift (Js.get responseData "extendedMetadata") ;;
       let commandServiceEndpoint :=
         Js.get_opt extendedMetadata "commandServiceEndpoint" in
       createdMs <- now h ;;
       ret (mkEntry
              (NamespaceSandbox.mk instanceId
                 ("instance-" ++ Js.toString instanceId)
                 commandServiceEndpoint token containerName
                 (DateOfMs createdMs))
              instanceId))
    (fun error =>
       throw (JsError ("Failed to create Namespace instance: "
                       ++ Js.describe error))).

(** [metadata?.createdAt ? new Date(metadata.createdAt) : new Date(0)] *)
Definition created_at (metadata : JsVal) : JsDate :=
  let createdAt := Js.get_opt metadata "createdAt" in
  if Js.truthy createdAt then DateOfValue createdAt else DateOfMs 0.

(** [error instanceof Error && error.message.includes('404')] *)
Definition mentions_404 (error : Thrown) : bool :=
  match error with
  | JsError message => Js.includes "404" message
  | ThrownValue _ => false
  end.

(** The result is [None] where the source returns [null]. *)
Definition getById (h : Host) (config : NamespaceConfig.t)
    (sandboxId : string) : Async (option SandboxEntry) :=
  creds <- getAndValidateCredentials h config ;;
  let token := cred_token creds in
  try_catch
    (responseData <-
       fetchNamespace h token API_ENDPOINTS.DESCRIBE_INSTANCE
         (post (JSON_stringify h (JObj [("instance_id", JStr sandboxId)])))
         JUndefined ;;
     metadata <- lift (Js.get responseData "metadata") ;;
     if negb (Js.truthy (Js.get_opt metadata "instanceId"))
     then throw (JsError "Instance data is missing from Namespace response")
     else
       instanceId <- lift (Js.get metadata "instanceId") ;;
       extendedMetadata <- lift (Js.get responseData "extendedMetadata") ;;
       let commandServiceEndpoint :=
         Js.get_opt extendedMetadata "commandServiceEndpoint" in
       ret (Some
              (mkEntry
                 (NamespaceSandbox.mk instanceId
                    ("instance-" ++ Js.toString instanceId)
                    commandServiceEndpoint token
                    (or_string (NamespaceConfig.targetContainerName config)
                       "main-container")
                    (created_at metadata))
                 instanceId)))
    (fun error =>
       if mentions_404 error then ret None
       else throw (JsError ("Failed to get Namespace instance: "
                            ++ Js.describe error))).

Definition destroy (h : Host) (config : NamespaceConfig.t)
    (sandboxId : string) : Async unit :=
  creds <- getAndValidateCredentials h config ;;
  let token := cred_token creds in
  try_catch
    (data <-
       fetchNamespace h token API_ENDPOINTS.DESTROY_INSTANCE
         (post (JSON_stringify h
                  (JObj
                     [("instance_id", JStr sandboxId);
                      ("reason",
                       JStr (or_string (NamespaceConfig.destroyReason config)
                               "ComputeSDK cleanup"))])))
         JUndefined ;;
     error <- lift (Js.get data "error") ;;
     if Js.truthy error
     then console_warn ("Namespace destroy warning: " ++ Js.toString error)
     else ret tt)
    (fun error =>
       console_warn ("Namespace destroy warning: " ++ Js.describe error)).

(** *** Command execution *)

Definition no_endpoint_message : string :=
  "Command service endpoint not available. The instance may not support command execution.".

Definition envPrefix (h : Host) (env : list (string * string)) : string :=
  String.concat " "
    (map (fun kv => fst kv ++ "=" ++ escapeShellArg h (snd kv)) env).

(** The three rewriting steps applied to [command] before it is sent. *)
Definition fullCommand (h : Host) (command : string)
    (options : opt RunCommandOptions.t) : string :=
  let withEnv :=
    match opt_field options RunCommandOptions.env with
    | def ((_ :: _) as env) => envPrefix h env ++ " " ++ command
    | _ => command
    end in
  let withCwd :=
    match opt_field options RunCommandOptions.cwd with
    | def cwd =>
        if cwd =? "" then withEnv
        else "cd " ++ escapeShellArg h cwd ++ " && " ++ withEnv
    | _ => withEnv
    end in
  match opt_field options RunCommandOptions.background with
  | def true => "nohup " ++ withCwd ++ " > /dev/null 2>&1 &"
  | _ => withCwd
  end.

Definition runCommand_body (sandbox : NamespaceSandbox.t) (full : string)
  : JsVal :=
  JObj
    [("instanceId", NamespaceSandbox.instanceId sandbox);
     ("targetContainerName",
      JStr (NamespaceSandbox.targetContainerName sandbox));
     ("command", JObj [("command", JArr [JStr "sh"; JStr "-c"; JStr full])])].

(** [Buffer.from(data, 'base64').toString()] *)
Definition Buffer_from_base64_toString (h : Host) (data : JsVal)
  : Result string :=
  match data with
  | JStr s => Ok (Buffer_base64_toString h s)
  | _ => Buffer_from_nonstring h data
  end.

Definition decodeBase64 (h : Host) (data : JsVal) : JsVal :=
  if negb (Js.truthy data) then JStr ""
  else
    match Buffer_from_base64_toString h data with
    | Ok s => JStr s
    | Throw _ => data
    end.

Definition runCommand (h : Host) (sandbox : NamespaceSandbox.t)
    (command : string) (options : opt RunCommandOptions.t)
  : Async CommandResult :=
  if negb (Js.truthy (NamespaceSandbox.commandServiceEndpoint sandbox))
  then throw (JsError no_endpoint_message)
  else
    startTime <- now h ;;
    try_catch
      (result <-
         fetchNamespace h (NamespaceSandbox.token sandbox)
           COMMAND_SERVICE.RUN_COMMAND_SYNC
           (post (JSON_stringify h
                    (runCommand_body sandbox (fullCommand h command options))))
           (NamespaceSandbox.commandServiceEndpoint sandbox) ;;
       rawStdout <- lift (Js.get result "stdout") ;;
       let stdout := decodeBase64 h rawStdout in
       rawStderr <- lift (Js.get result "stderr") ;;
       let stderr := decodeBase64 h rawStderr in
       rawExitCode <- lift (Js.get result "exitCode") ;;
       endTime <- now h ;;
       ret (mkCommandResult stdout stderr
              (Js.coalesce rawExitCode (JNum 0))
              (endTime - startTime)))
      (fun error =>
         throw (JsError ("Namespace command execution failed: "
                         ++ Js.describe error))).

Definition runCode_message : string :=
  "Namespace provider does not support runCode. Use runCommand instead.".

Definition getUrl_message : string :=
  "Namespace provider does not support getUrl.".

(** [Runtime] and [CodeResult] are declared in [@computesdk/provider]; the
    method uses neither. *)
Definition runCode {Runtime CodeResult : Type} (_sandbox : NamespaceSandbox.t)
    (_code : string) (_runtime : opt Runtime)
    (_config : opt NamespaceConfig.t) : Async CodeResult :=
  throw (JsError runCode_message).

Definition getInfo (sandbox : NamespaceSandbox.t) : Async SandboxInfo :=
  ret (mkInfo (NamespaceSandbox.instanceId sandbox) "namespace" "node"
         "running" (NamespaceSandbox.createdAt sandbox) 0
         [("name", JStr (NamespaceSandbox.name sandbox));
          ("commandServiceEndpoint",
           NamespaceSandbox.commandServiceEndpoint sandbox)]).

Record UrlOptions : Type := mkUrlOptions {
  port : Z;
  protocol : opt string
}.

Definition getUrl (_sandbox : NamespaceSandbox.t) (_options : UrlOptions)
  : Async string :=
  throw (JsError getUrl_message).

Definition getInstance (sandbox : NamespaceSandbox.t) : NamespaceSandbox.t :=
  sandbox.

(** *** Listing *)

(** [Array.prototype.filter] and [Array.prototype.map] with callbacks that
    may throw: the first exception ends the traversal. *)
Fixpoint Array_filter (callback : JsVal -> Async bool) (xs : list JsVal)
  : Async (list JsVal) :=
  match xs with
  | [] => ret []
  | x :: rest =>
      keep <- callback x ;;
      kept <- Array_filter callback rest ;;
      ret (if keep then x :: kept else kept)
  end.

Fixpoint Array_map {B} (callback : JsVal -> Async B) (xs : list JsVal)
  : Async (list B) :=
  match xs with
  | [] => ret []
  | x :: rest =>
      y <- callback x ;;
      ys <- Array_map callback rest ;;
      ret (y :: ys)
  end.

(** [instanceData.instanceId || instanceData.metadata?.instanceId] *)
Definition list_keep (instanceData : JsVal) : Async bool :=
  top <- lift (Js.get instanceData "instanceId") ;;
  if Js.truthy top then ret true
  else
    metadata <- lift (Js.get instanceData "metadata") ;;
    ret (Js.truthy (Js.get_opt metadata "instanceId")).

Definition list_entry (config : NamespaceConfig.t) (token : JsVal)
    (instanceData : JsVal) : Async SandboxEntry :=
  top <- lift (Js.get instanceData "instanceId") ;;
  instanceId <-
    (if Js.truthy top then ret top
     else
       metadata <- lift (Js.get instanceData "metadata") ;;
       lift (Js.get metadata "instanceId")) ;;
  extendedMetadata <- lift (Js.get instanceData "extendedMetadata") ;;
  let commandServiceEndpoint :=
    Js.get_opt extendedMetadata "commandServiceEndpoint" in
  metadata <- lift (Js.get instanceData "metadata") ;;
  ret (mkEntry
         (NamespaceSandbox.mk instanceId
            ("instance-" ++ Js.toString instanceId)
            commandServiceEndpoint token
            (or_string (NamespaceConfig.targetContainerName config)
               "main-container")
            (created_at metadata))
         instanceId).

Definition list (h : Host) (config : NamespaceConfig.t)
  : Async (Datatypes.list SandboxEntry) :=
  creds <- getAndValidateCredentials h config ;;
  let token := cred_token creds in
  try_catch
    (responseData <-
       fetchNamespace h token API_ENDPOINTS.LIST_INSTANCES
         (post (JSON_stringify h (JObj []))) JUndefined ;;
     let instances := Js.or (Js.get_opt responseData "instances") (JArr []) in
     match instances with
     | JArr xs =>
         kept <- Array_filter list_keep xs ;;
         Array_map (list_entry config token) kept
     | _ => throw (JsError "instances.filter is not a function")
     end)
    (fun error =>
       throw (JsError ("Failed to list Namespace instances: "
                       ++ Js.describe error))).

End namespace.

(** ** Vocabulary of the specification *)

(** The module throws plain [Error]s; the specification's error kinds are
    told apart by the message the module gives them. *)
Definition ConfigurationError (e : Thrown) : Prop :=
  e = JsError missing_token_message \/
  exists filePath, e = JsError (no_bearer_token_message filePath).

Definition UnsupportedOperationError (e : Thrown) : Prop :=
  e = JsError namespace.runCode_message \/
  e = JsError namespace.getUrl_message \/
  e = JsError namespace.no_endpoint_message.

Definition CommandExecutionError (e : Thrown) : Prop :=
  exists cause, e = JsError ("Namespace command execution failed: " ++ cause).

(** A source of credentials is empty when it is falsy: missing, or the
    empty string. *)
Definition empty (v : JsVal) : Prop := Js.truthy v = false.

(** The call returns normally. *)
Definition returns_normally {A} (m : Async A) (st : State) : Prop :=
  exists a st', m st = (Ok a, st').

(** All the offsets at which [sub] occurs in [s]. *)
Fixpoint positions_from (sub s : string) (i : nat) : list nat :=
  (if prefix sub s then [i] else []) ++
  match s with
  | EmptyString => []
  | String _ rest => positions_from sub rest (S i)
  end.

Definition positions (sub s : string) : list nat := positions_from sub s 0.

(** What [fetchNamespace] makes of the outcome of [fetch]. *)
Definition response_outcome (r : Result Response) : Result JsVal :=
  match r with
  | Throw e => Throw e
  | Ok response =>
      if negb (ok response)
      then Throw (JsError ("Namespace API error: "
                           ++ Js.of_Z (status response) ++ " "
                           ++ statusText response))
      else
        match json response with
        | Throw e => Throw e
        | Ok data =>
            match Js.get data "error" with
            | Throw e => Throw e
            | Ok error =>
                if Js.truthy error
                then Throw (JsError ("Namespace API error: "
                                     ++ Js.toString error))
                else Ok data
            end
        end
  end.

(** The requests of the lifecycle and command methods. *)
Definition describe_request (h : Host) (token : JsVal) (sandboxId : string)
  : Request :=
  request_of token API_ENDPOINTS.DESCRIBE_INSTANCE
    (post (JSON_stringify h (JObj [("instance_id", JStr sandboxId)])))
    JUndefined.

Definition list_request (h : Host) (token : JsVal) : Request :=
  request_of token API_ENDPOINTS.LIST_INSTANCES
    (post (JSON_stringify h (JObj []))) JUndefined.

Definition destroy_request (h : Host) (config : NamespaceConfig.t)
    (token : JsVal) (sandboxId : string) : Request :=
  request_of token API_ENDPOINTS.DESTROY_INSTANCE
    (post (JSON_stringify h
             (JObj
                [("instance_id", JStr sandboxId);
                 ("reason",
                  JStr (or_string (NamespaceConfig.destroyReason config)
                          "ComputeSDK cleanup"))])))
    JUndefined.

Definition create_request (h : Host) (config : NamespaceConfig.t)
    (options : opt CreateSandboxOptions.t) (token : JsVal) (nowMs : Z)
  : Request :=
  request_of token API_ENDPOINTS.CREATE_INSTANCE
    (post (JSON_stringify h
             (namespace.create_requestBody h config options
                (or_string (NamespaceConfig.targetContainerName config)
                   "main-container")
                nowMs)))
    JUndefined.

Definition command_request (h : Host) (sandbox : NamespaceSandbox.t)
    (full : string) : Request :=
  request_of (NamespaceSandbox.token sandbox)
    COMMAND_SERVICE.RUN_COMMAND_SYNC
    (post (JSON_stringify h (namespace.runCommand_body sandbox full)))
    (NamespaceSandbox.commandServiceEndpoint sandbox).

(** ** Sample hosts *)

Module Sample.

Definition dquote : string := String (ascii_of_nat 34) EmptyString.
Definition backslash : string := String (ascii_of_nat 92) EmptyString.

Fixpoint json_escape (s : string) : string :=
  match s with
  | EmptyString => EmptyString
  | String c rest =>
      (if (nat_of_ascii c =? 34)%nat || (nat_of_ascii c =? 92)%nat
       then backslash else "")
      ++ String c (json_escape rest)
  end.

Definition json_string (s : string) : string :=
  dquote ++ json_escape s ++ dquote.

(** A compact JSON printer: properties holding [undefined] are left out,
    [undefined] inside an array prints as [null]. *)
Fixpoint stringify (v : JsVal) : string :=
  match v with
  | JUndefined | JNull => "null"
  | JBool true => "true"
  | JBool false => "false"
  | JNum n => Js.of_Z n
  | JStr s => json_string s
  | JArr xs => "[" ++ String.concat "," (map stringify xs) ++ "]"
  | JObj fields =>
      "{" ++ String.concat ","
               (flat_map
                  (fun kv =>
                     match kv with
                     | (k, v') =>
                         match v' with
                         | JUndefined => []
                         | _ => [json_string k ++ ":" ++ stringify v']
                         end
                     end)
                  fields)
      ++ "}"
  end.

Definition shell_safe (c : ascii) : bool :=
  let n := nat_of_ascii c in
  ((48 <=? n) && (n <=? 57) || (65 <=? n) && (n <=? 90)
   || (97 <=? n) && (n <=? 122)
   || existsb (Nat.eqb n) [37; 43; 44; 45; 46; 47; 58; 61; 64; 95])%nat.

Fixpoint all_safe (s : string) : bool :=
  match s with
  | EmptyString => true
  | String c rest => shell_safe c && all_safe rest
  end.

Fixpoint quote_body (s : string) : string :=
  match s with
  | EmptyString => EmptyString
  | String c rest =>
      if (nat_of_ascii c =? 39)%nat
      then "'" ++ backslash ++ "''" ++ quote_body rest
      else String c (quote_body rest)
  end.

(** One possible [escapeShellArg]: words made of safe characters are left
    alone, anything else is wrapped in single quotes. *)
Definition escape (s : string) : string :=
  if (s =? "") || negb (all_safe s) then "'" ++ quote_body s ++ "'"
  else s.

Definition token_file : string := "{" ++ json_string "bearer_token" ++ ":"
                                  ++ json_string "abc" ++ "}".

(** A [JSON.parse] that knows the three texts the sample files hold. *)
Definition parse (text : string) : Result JsVal :=
  if text =? token_file then Ok (JObj [("bearer_token", JStr "abc")])
  else if text =? "{}" then Ok (JObj [])
  else Throw (JsError "Unexpected token in JSON").

Definition files (path : string) : Result string :=
  if path =? "/home/u/token.json" then Ok token_file
  else if path =? "/home/u/empty.json" then Ok "{}"
  else Throw (JsError ("ENOENT: no such file or directory, open '"
                       ++ path ++ "'")).

Definition host (env : option (string -> option string))
    (remote : Request -> Result Response) : Host :=
  mkHost env files parse stringify stringify remote
    (fun n => 1700000000000 + 7 * Z.of_nat n)%Z
    (fun ms => "at " ++ Js.of_Z ms ++ "ms")
    escape
    (fun bytes => bytes)
    (fun _ => Throw (JsError "The first argument must be of type string")).

Definition no_env : option (string -> option string) := Some (fun _ => None).

Definition env_token : option (string -> option string) :=
  Some (fun name => if name =? "NSC_TOKEN" then Some "envtok" else None).

Definition env_file (path : string) : option (string -> option string) :=
  Some (fun name => if name =? "NSC_TOKEN_FILE" then Some path else None).

Definition replies (data : JsVal) : Request -> Result Response :=
  fun _ => Ok (mkResponse true 200 "OK" (Ok data)).

Definition fails_with (code : Z) (text : string)
  : Request -> Result Response :=
  fun _ => Ok (mkResponse false code text (Throw (JsError "no body"))).

Definition unreachable : Request -> Result Response :=
  fun _ => Throw (JsError "fetch failed").

Definition config : NamespaceConfig.t :=
  NamespaceConfig.mk (def "tok") undefined undefined undefined undefined
    undefined undefined undefined undefined.

Definition no_config : NamespaceConfig.t :=
  NamespaceConfig.mk undefined undefined undefined undefined undefined
    undefined undefined undefined undefined.

Definition box : NamespaceSandbox.t :=
  NamespaceSandbox.mk (JStr "i-1") "instance-i-1"
    (JStr "https://cmd.example") (JStr "tok") "main-container"
    (DateOfMs 0).

End Sample.

(** The two expressions the resolver evaluates before it touches a file. *)
Definition direct_token (h : Host) (config : NamespaceConfig.t) : JsVal :=
  Js.or (Js.or (Js.of_opt_string (NamespaceConfig.token config))
           (env_var h "NSC_TOKEN"))
        (JStr "").

Definition token_file_name (h : Host) (config : NamespaceConfig.t) : JsVal :=
  Js.or (Js.or (Js.of_opt_string (NamespaceConfig.tokenFile config))
           (env_var h "NSC_TOKEN_FILE"))
        (JStr "").


(** [path] is the token file the resolver falls back to: [config.tokenFile]
    when that is non-empty, [NSC_TOKEN_FILE] otherwise. *)
Definition names_token_file (h : Host) (config : NamespaceConfig.t)
    (path : string) : Prop :=
  path <> "" /\
  (NamespaceConfig.tokenFile config = def path \/
   (empty (Js.of_opt_string (NamespaceConfig.tokenFile config)) /\
    env_var h "NSC_TOKEN_FILE" = JStr path)).

(** The call raises. *)
Definition raises {A} (m : Async A) (st : State) : Prop :=
  exists e st', m st = (Throw e, st').

(** The remote call failed with HTTP status 404. *)
Definition http_404 (r : Result Response) : Prop :=
  exists response,
    r = Ok response /\ ok response = false /\ status response = 404%Z.

(** C4 as the specification words it: [null] on HTTP 404, and every other
    failure of the remote call raised to the caller. *)
Definition getById_only_hides_http_404 (h : Host) (config : NamespaceConfig.t)
    (sandboxId : string) (st : State) : Prop :=
  forall creds,
    fst (getAndValidateCredentials h config st) = Ok creds ->
    let r := fetch h (describe_request h (cred_token creds) sandboxId) in
    (http_404 r ->
     exists st', namespace.getById h config sandboxId st = (Ok None, st')) /\
    (forall e, response_outcome r = Throw e -> ~ http_404 r ->
               raises (namespace.getById h config sandboxId) st).

(** An entry of a list response carries an identifier when [instanceId] or
    [metadata.instanceId] is truthy; [id_of] is the one the module takes. *)
Definition carries_id (entry : JsVal) : bool :=
  Js.truthy (Js.get_opt entry "instanceId")
  || Js.truthy (Js.get_opt (Js.get_opt entry "metadata") "instanceId").

Definition id_of (entry : JsVal) : JsVal :=
  Js.or (Js.get_opt entry "instanceId")
        (Js.get_opt (Js.get_opt entry "metadata") "instanceId").

(** The canonical record of a listed entry. *)
Definition canonical (config : NamespaceConfig.t) (token : JsVal)
    (entry : JsVal) : SandboxEntry :=
  mkEntry
    (NamespaceSandbox.mk (id_of entry)
       ("instance-" ++ Js.toString (id_of entry))
       (Js.get_opt (Js.get_opt entry "extendedMetadata")
          "commandServiceEndpoint")
       token
       (or_string (NamespaceConfig.targetContainerName config)
          "main-container")
       (namespace.created_at (Js.get_opt entry "metadata")))
    (id_of entry).

(** The entries of a list response: its [instances] array, none when the
    field is missing. *)
Definition lists (data : JsVal) (entries : list JsVal) : Prop :=
  Js.or (Js.get_opt data "instances") (JArr []) = JArr entries.

Definition present (entry : JsVal) : Prop := Js.nullish entry = false.

(** C6 as the specification words it: whatever entries a list response
    holds, the call returns the canonical records of those that carry an
    identifier. *)
Definition list_answers_every_response (h : Host) (config : NamespaceConfig.t)
    (st : State) : Prop :=
  forall creds data entries,
    fst (getAndValidateCredentials h config st) = Ok creds ->
    response_outcome (fetch h (list_request h (cred_token creds))) = Ok data ->
    lists data entries ->
    fst (namespace.list h config st) =
    Ok (map (canonical config (cred_token creds))
          (filter carries_id entries)).

(** The options of the example in the specification:
    [{ env: { FOO: "bar" }, cwd: "/tmp" }], with any [background]. *)
Definition foo_bar_in_tmp (background : opt bool) : opt RunCommandOptions.t :=
  def (RunCommandOptions.mk (def [("FOO", "bar")]) (def "/tmp") background).

(** C2 as the specification words it: in the composed string the assignment
    of [FOO] starts before the directory change, which starts before the
    original command. *)
Definition env_then_cd_then_command (h : Host) (command composed : string)
  : Prop :=
  exists i j k,
    In i (positions ("FOO=" ++ escapeShellArg h "bar") composed) /\
    In j (positions ("cd " ++ escapeShellArg h "/tmp") composed) /\
    In k (positions command composed) /\
    (i < j)%nat /\ (j < k)%nat.

(** Reading a creation request body: the one container, a field of it, a
    field of the machine shape. *)
Definition container_of (requestBody : JsVal) : JsVal :=
  match Js.get_opt requestBody "containers" with
  | JArr (container :: _) => container
  | _ => JUndefined
  end.

Definition container_field (requestBody : JsVal) (k : string) : JsVal :=
  Js.get_opt (container_of requestBody) k.

Definition shape_field (requestBody : JsVal) (k : string) : JsVal :=
  Js.get_opt (Js.get_opt requestBody "shape") k.

(** [options?.image] is [undefined] or [null] *)
Definition image_absent (options : opt CreateSandboxOptions.t) : Prop :=
  opt_field options CreateSandboxOptions.image = undefined \/
  opt_field options CreateSandboxOptions.image = null.

(** The value an object of headers holds under [key], and the value the
    last entry for [key] in a caller's list of headers gives it. *)
Fixpoint header_value (key : string) (hs : list (string * string))
  : option string :=
  match hs with
  | [] => None
  | (k, v) :: rest => if k =? key then Some v else header_value key rest
  end.

Fixpoint last_value (key : string) (hs : list (string * string))
  : option string :=
  match hs with
  | [] => None
  | (k, v) :: rest =>
      match last_value key rest with
      | Some v' => Some v'
      | None => if k =? key then Some v else None
      end
  end.

(** A host whose token files are a missing one, an unparsable one and one
    that holds an empty [bearer_token]. *)
Definition broken_files_host : Host :=
  mkHost Sample.no_env
    (fun path =>
       if path =? "/t/garbled.json" then Ok "not json"
       else if path =? "/t/blank.json" then Ok "blank"
       else Throw (JsError "ENOENT: no such file or directory"))
    (fun text =>
       if text =? "blank" then Ok (JObj [("bearer_token", JStr "")])
       else Throw (JsError "Unexpected token in JSON"))
    Sample.stringify Sample.stringify Sample.unreachable
    (fun n => Z.of_nat n) (fun ms => Js.of_Z ms) Sample.escape
    (fun bytes => bytes)
    (fun _ => Throw (JsError "The first argument must be of type string")).

Definition file_config (path : string) : NamespaceConfig.t :=
  NamespaceConfig.mk undefined (def path) undefined undefined undefined
    undefined undefined undefined undefined.

(** The record [create] and [getById] build from response [data]. *)
Definition record_of (token : JsVal) (containerName : string)
    (createdAt : JsDate) (data : JsVal) : SandboxEntry :=
  let instanceId := Js.get_opt (Js.get_opt data "metadata") "instanceId" in
  mkEntry
    (NamespaceSandbox.mk instanceId
       ("instance-" ++ Js.toString instanceId)
       (Js.get_opt (Js.get_opt data "extendedMetadata")
          "commandServiceEndpoint")
       token containerName createdAt)
    instanceId.

(** What every record handed to a caller satisfies. *)
Definition well_formed (token : JsVal) (entry : SandboxEntry) : Prop :=
  Js.truthy (sandboxId entry) = true /\
  NamespaceSandbox.instanceId (sandbox entry) = sandboxId entry /\
  NamespaceSandbox.name (sandbox entry) =
    "instance-" ++ Js.toString (sandboxId entry) /\
  NamespaceSandbox.token (sandbox entry) = token.

(** [v] is not an array. *)
Definition not_an_array (v : JsVal) : Prop := forall xs, v <> JArr xs.

(** [options?.envs] holds no entry: it is missing or an empty object. *)
Definition no_envs (options : opt CreateSandboxOptions.t) : Prop :=
  match opt_field options CreateSandboxOptions.envs with
  | def (_ :: _) => False
  | _ => True
  end.

(** None of the three options of [runCommand] applies. *)
Definition plain (options : opt RunCommandOptions.t) : Prop :=
  match opt_field options RunCommandOptions.env with
  | def (_ :: _) => False
  | _ => True
  end /\
  or_string (opt_field options RunCommandOptions.cwd) "" = "" /\
  opt_field options RunCommandOptions.background <> def true.

(** The wrapping [background] asks for. *)
Definition detached (background : opt bool) (inner : string) : string :=
  match background with
  | def true => "nohup " ++ inner ++ " > /dev/null 2>&1 &"
  | _ => inner
  end.

(** Successive readings of the clock never go back. *)
Definition monotone_clock (h : Host) : Prop :=
  forall n, (Date_now h n <= Date_now h (S n))%Z.

(** [data] is not a string. *)
Definition not_a_string (data : JsVal) : Prop := forall s, data <> JStr s.

(** * Properties *)

(** ** Running the monad *)

Lemma bind_ok {A B} (m : Async A) (k : A -> Async B) st a st' :
  m st = (Ok a, st') -> bind m k st = k a st'.
Proof. intros H. unfold bind. now rewrite H. Qed.

Lemma bind_throw {A B} (m : Async A) (k : A -> Async B) st e st' :
  m st = (Throw e, st') -> bind m k st = (Throw e, st').
Proof. intros H. unfold bind. now rewrite H. Qed.

Ltac split_cases :=
  repeat (cbn;
          match goal with
          | |- context [match ?x with _ => _ end] => destruct x eqn:?
          end);
  try reflexivity.

(** ** Credentials *)

Lemma loadTokenFromFile_state h filePath st :
  snd (loadTokenFromFile h filePath st) = st.
Proof.
  unfold loadTokenFromFile, bind, lift, throw, ret. split_cases.
Qed.

(** Resolving credentials writes nothing and sends nothing. *)
Lemma getAndValidateCredentials_state h config st :
  snd (getAndValidateCredentials h config st) = st.
Proof.
  unfold getAndValidateCredentials, bind, throw, ret.
  destruct (negb (Js.truthy _)) eqn:Hdirect.
  - destruct (Js.truthy (Js.or (Js.or _ (env_var h "NSC_TOKEN_FILE")) _));
      [ | rewrite Hdirect; reflexivity ].
    pose proof (loadTokenFromFile_state h
      (Js.toString
         (Js.or (Js.or (Js.of_opt_string (NamespaceConfig.tokenFile config))
                   (env_var h "NSC_TOKEN_FILE")) (JStr ""))) st) as Hst.
    destruct (loadTokenFromFile h _ st) as [[tok | e] st']; cbn in Hst |- *;
      subst; [ destruct (negb (Js.truthy tok)) | ]; reflexivity.
  - rewrite Hdirect. reflexivity.
Qed.

Lemma credentials_resolved h config st creds :
  fst (getAndValidateCredentials h config st) = Ok creds ->
  getAndValidateCredentials h config st = (Ok creds, st).
Proof.
  intros H. pose proof (getAndValidateCredentials_state h config st) as Hst.
  destruct (getAndValidateCredentials h config st); cbn in *. congruence.
Qed.

Lemma credentials_rejected h config st e :
  fst (getAndValidateCredentials h config st) = Throw e ->
  getAndValidateCredentials h config st = (Throw e, st).
Proof.
  intros H. pose proof (getAndValidateCredentials_state h config st) as Hst.
  destruct (getAndValidateCredentials h config st); cbn in *. congruence.
Qed.

(** ** Transport *)

Lemma fetchNamespace_eq h token endpoint options baseUrl st :
  fetchNamespace h token endpoint options baseUrl st =
  (response_outcome (fetch h (request_of token endpoint options baseUrl)),
   with_request (request_of token endpoint options baseUrl) st).
Proof.
  unfold fetchNamespace, handleApiErrors, bind, call_fetch, lift, throw, ret,
    response_outcome.
  destruct (fetch h _) as [response | e]; [ | reflexivity ].
  destruct (ok response); cbn; [ | reflexivity ].
  destruct (json response) as [data | e]; [ | reflexivity ].
  destruct (Js.get data "error") as [error | e]; [ | reflexivity ].
  destruct (Js.truthy error); reflexivity.
Qed.

(** Data that comes back from [fetchNamespace] is neither [undefined] nor
    [null] and carries no truthy [error]. *)
Lemma response_outcome_ok r data :
  response_outcome r = Ok data ->
  Js.nullish data = false /\
  exists error, Js.get data "error" = Ok error /\ Js.truthy error = false.
Proof.
  unfold response_outcome.
  destruct r as [response | e]; [ | discriminate ].
  destruct (negb (ok response)); [ discriminate | ].
  destruct (json response) as [d | e]; [ | discriminate ].
  destruct (Js.get d "error") as [error | e] eqn:Hget; [ | discriminate ].
  destruct (Js.truthy error) eqn:Ht; [ discriminate | ].
  intros [= <-]. split; [ | eauto ].
  destruct d; cbn in Hget |- *; congruence.
Qed.

Lemma get_not_nullish v k :
  Js.nullish v = false -> Js.get v k = Ok (Js.get_opt v k).
Proof. destruct v; cbn; intros; congruence. Qed.

(** ** Substrings *)

Lemma prefix_app p s t : prefix p s = true -> prefix p (s ++ t) = true.
Proof.
  revert s. induction p as [ | c p IH]; intros s H.
  - destruct (s ++ t); reflexivity.
  - destruct s as [ | d s]; cbn in *; [ discriminate | ].
    destruct (ascii_dec c d); [ now apply IH | discriminate ].
Qed.

Lemma includes_app_l sub s t :
  Js.includes sub s = true -> Js.includes sub (s ++ t) = true.
Proof.
  induction s as [ | c s IH]; cbn [Js.includes]; intros H.
  - rewrite orb_false_r in H.
    destruct sub; [ destruct t; reflexivity | discriminate ].
  - apply orb_true_iff in H as [H | H].
    + pose proof (prefix_app _ (String c s) t H) as Hp.
      cbn [append] in Hp |- *. cbn [Js.includes]. rewrite Hp. reflexivity.
    + cbn [append Js.includes]. rewrite (IH H). apply orb_true_r.
Qed.

Lemma includes_app_r sub p s :
  Js.includes sub s = true -> Js.includes sub (p ++ s) = true.
Proof.
  intros H. induction p as [ | c p IH]; [ exact H | ].
  cbn [append Js.includes]. rewrite IH. apply orb_true_r.
Qed.

Lemma prefix_spec sub s :
  prefix sub s = true <-> exists rest, s = sub ++ rest.
Proof.
  revert s. induction sub as [ | c sub IH]; intros s.
  - split; [ intros _; now exists s | intros _; now destruct s ].
  - destruct s as [ | d s]; cbn.
    + split; [ discriminate | intros (rest & Heq); discriminate Heq ].
    + destruct (ascii_dec c d) as [-> | Hcd].
      * rewrite IH. split; intros (rest & Heq); exists rest.
        -- now rewrite Heq.
        -- now injection Heq.
      * split; [ discriminate | ].
        intros (rest & Heq). injection Heq as Hc _. now elim Hcd.
Qed.

Lemma positions_from_spec sub s n i :
  In i (positions_from sub s n) <->
  exists before after,
    s = before ++ sub ++ after /\ i = (n + String.length before)%nat.
Proof.
  revert n. induction s as [ | c s IH]; intros n; cbn [positions_from].
  - rewrite app_nil_r. split.
    + destruct (prefix sub "") eqn:Hp; [ | intros [] ].
      intros [<- | []]. apply prefix_spec in Hp as (rest & Heq).
      exists "", rest. split; [ exact Heq | cbn; lia ].
    + intros ([ | ? ?] & after & Heq & ->); [ | discriminate Heq ].
      assert (Hp : prefix sub "" = true) by (apply prefix_spec; eauto).
      rewrite Hp. left. cbn. lia.
  - rewrite in_app_iff, IH. split.
    + intros [Hhere | (before & after & -> & ->)].
      * destruct (prefix sub (String c s)) eqn:Hp; [ | destruct Hhere ].
        destruct Hhere as [<- | []].
        apply prefix_spec in Hp as (rest & Heq).
        exists "", rest. split; [ exact Heq | cbn; lia ].
      * exists (String c before), after. split; [ reflexivity | cbn; lia ].
    + intros ([ | d before] & after & Heq & ->).
      * left. assert (Hp : prefix sub (String c s) = true)
          by (apply prefix_spec; eauto).
        rewrite Hp. left. cbn. lia.
      * right. injection Heq as _ ->.
        exists before, after. split; [ reflexivity | cbn; lia ].
Qed.

(** [positions] lists exactly the offsets at which [sub] occurs. *)
Lemma positions_spec sub s i :
  In i (positions sub s) <->
  exists before after, s = before ++ sub ++ after /\ i = String.length before.
Proof. unfold positions. now rewrite positions_from_spec. Qed.

(** ** destroy *)

(** C1, as stated, fails: credentials are resolved before the [try], so with
    no token in the config, the environment or a file, [destroy] rejects with
    the resolver's error. *)
Lemma destroy_raises_without_credentials :
  ~ returns_normally
      (namespace.destroy (Sample.host Sample.no_env Sample.unreachable)
         Sample.no_config "i-1")
      initial.
Proof.
  intros (a & st' & H). vm_compute in H. discriminate H.
Qed.

(** C1, amended: once the credentials resolve, [destroy] never raises.  It
    sends one request and returns normally; a failure of that request (a
    rejected [fetch], a non-success status, an unreadable body or an
    [error] field in the response) leaves exactly one warning, and success
    leaves none.  When the credentials do not resolve, [destroy] rejects with
    the resolver's error and sends nothing. *)
Theorem destroy_never_raises_once_credentials_resolve
    h config sandboxId st :
  (forall creds,
     fst (getAndValidateCredentials h config st) = Ok creds ->
     let rq := destroy_request h config (cred_token creds) sandboxId in
     exists st',
       namespace.destroy h config sandboxId st = (Ok tt, st') /\
       requests st' = (requests st ++ [rq])%list /\
       warnings st' =
         (warnings st ++
          match response_outcome (fetch h rq) with
          | Ok _ => []
          | Throw e =>
              [("Namespace destroy warning: " ++ Js.describe e)%string]
          end)%list) /\
  (forall e,
     fst (getAndValidateCredentials h config st) = Throw e ->
     namespace.destroy h config sandboxId st = (Throw e, st)).
Proof.
  split.
  - intros creds Hcreds rq. apply credentials_resolved in Hcreds.
    unfold namespace.destroy. rewrite (bind_ok _ _ _ _ _ Hcreds).
    fold (destroy_request h config (cred_token creds) sandboxId). fold rq.
    unfold try_catch, bind. unfold destroy_request in rq.
    rewrite fetchNamespace_eq. fold rq.
    destruct (response_outcome (fetch h rq)) as [data | e] eqn:Hout.
    + destruct (response_outcome_ok _ _ Hout) as (_ & error & Hget & Hfalsy).
      unfold lift. rewrite Hget, Hfalsy. eexists. split; [ reflexivity | ].
      cbn. now rewrite app_nil_r.
    + eexists. split; [ reflexivity | ]. cbn. auto.
  - intros e Hfail. apply credentials_rejected in Hfail.
    unfold namespace.destroy. now rewrite (bind_throw _ _ _ _ _ Hfail).
Qed.

Lemma destroy_never_raises_once_credentials_resolve_witness :
  (exists st',
     namespace.destroy (Sample.host Sample.no_env Sample.unreachable)
       Sample.config "i-1" initial = (Ok tt, st') /\
     warnings st' = ["Namespace destroy warning: fetch failed"]) /\
  namespace.destroy (Sample.host Sample.no_env Sample.unreachable)
    Sample.no_config "i-1" initial =
  (Throw (JsError missing_token_message), initial).
Proof.
  split.
  - destruct (proj1 (destroy_never_raises_once_credentials_resolve
                       (Sample.host Sample.no_env Sample.unreachable)
                       Sample.config "i-1" initial)
                (mkCredentials (JStr "tok")) eq_refl)
      as (st' & Hrun & _ & Hwarn).
    exists st'. split; [ exact Hrun | exact Hwarn ].
  - apply (proj2 (destroy_never_raises_once_credentials_resolve
                    (Sample.host Sample.no_env Sample.unreachable)
                    Sample.no_config "i-1" initial)).
    reflexivity.
Defined.

(** ** Credential resolution *)

Lemma credentials_direct h config st :
  Js.truthy (direct_token h config) = true ->
  getAndValidateCredentials h config st =
  (Ok (mkCredentials (direct_token h config)), st).
Proof.
  intros H. unfold getAndValidateCredentials.
  fold (direct_token h config). cbv zeta. unfold bind, ret.
  rewrite H. cbn [negb]. rewrite H. reflexivity.
Qed.

Lemma credentials_from_file h config st :
  Js.truthy (direct_token h config) = false ->
  Js.truthy (token_file_name h config) = true ->
  getAndValidateCredentials h config st =
  match loadTokenFromFile h (Js.toString (token_file_name h config)) st with
  | (Ok bearer, st') =>
      if Js.truthy bearer then (Ok (mkCredentials bearer), st')
      else (Throw (JsError missing_token_message), st')
  | (Throw e, st') => (Throw e, st')
  end.
Proof.
  intros Hd Hf. unfold getAndValidateCredentials.
  fold (direct_token h config). fold (token_file_name h config).
  cbv zeta. unfold bind at 1. rewrite Hd, Hf. cbn [negb].
  destruct (loadTokenFromFile h (Js.toString (token_file_name h config)) st)
    as [[bearer | e] st']; [ | reflexivity ].
  unfold throw, ret. now destruct (Js.truthy bearer).
Qed.

Lemma credentials_missing h config st :
  Js.truthy (direct_token h config) = false ->
  Js.truthy (token_file_name h config) = false ->
  getAndValidateCredentials h config st =
  (Throw (JsError missing_token_message), st).
Proof.
  intros Hd Hf. unfold getAndValidateCredentials.
  fold (direct_token h config). fold (token_file_name h config).
  cbv zeta. unfold bind, ret, throw. rewrite Hd, Hf. cbn [negb]. now rewrite Hd.
Qed.

Lemma or_falsy a b c :
  Js.truthy a = false -> Js.truthy b = false ->
  Js.or (Js.or a b) (JStr c) = JStr c.
Proof. intros Ha Hb. unfold Js.or. rewrite Ha. now rewrite Hb. Qed.

Lemma or_first a b c :
  Js.truthy a = true -> Js.or (Js.or a b) c = a.
Proof. intros Ha. unfold Js.or. rewrite Ha. now rewrite Ha. Qed.

Lemma or_second a b c :
  Js.truthy a = false -> Js.truthy b = true -> Js.or (Js.or a b) c = b.
Proof. intros Ha Hb. unfold Js.or. rewrite Ha. now rewrite Hb. Qed.

Lemma truthy_nonempty t : t <> "" -> Js.truthy (JStr t) = true.
Proof. intros H. cbn. apply String.eqb_neq in H. now rewrite H. Qed.


Lemma token_file_named h config path :
  names_token_file h config path -> token_file_name h config = JStr path.
Proof.
  intros (Hp & [Hc | (Hc & He)]); unfold token_file_name.
  - rewrite Hc. apply or_first. now apply truthy_nonempty.
  - rewrite He. apply or_second; [ exact Hc | now apply truthy_nonempty ].
Qed.

(** C3: the resolver takes [config.token], else [NSC_TOKEN], else the
    [bearer_token] of the file named by [config.tokenFile] or
    [NSC_TOKEN_FILE], the first non-empty one winning; it fails with a
    ConfigurationError when that file has no [bearer_token] and when all
    three sources are empty. *)
Theorem credentials_resolution_order h config st :
  let result := fst (getAndValidateCredentials h config st) in
  let from_config := Js.of_opt_string (NamespaceConfig.token config) in
  let from_env := env_var h "NSC_TOKEN" in
  (forall t, NamespaceConfig.token config = def t -> t <> "" ->
     result = Ok (mkCredentials (JStr t))) /\
  (forall t, empty from_config -> from_env = JStr t -> t <> "" ->
     result = Ok (mkCredentials (JStr t))) /\
  (forall path content tokenJson bearer,
     empty from_config -> empty from_env -> names_token_file h config path ->
     fs_readFile h path = Ok content ->
     JSON_parse h content = Ok tokenJson ->
     Js.get tokenJson "bearer_token" = Ok bearer ->
     Js.truthy bearer = true ->
     result = Ok (mkCredentials bearer)) /\
  (forall path content fields,
     empty from_config -> empty from_env -> names_token_file h config path ->
     fs_readFile h path = Ok content ->
     JSON_parse h content = Ok (JObj fields) ->
     Js.lookup "bearer_token" fields = JUndefined ->
     result = Throw (JsError (no_bearer_token_message path)) /\
     ConfigurationError (JsError (no_bearer_token_message path))) /\
  (empty from_config -> empty from_env ->
   empty (Js.of_opt_string (NamespaceConfig.tokenFile config)) ->
   empty (env_var h "NSC_TOKEN_FILE") ->
   result = Throw (JsError missing_token_message) /\
   ConfigurationError (JsError missing_token_message)).
Proof.
  cbv zeta. unfold empty. repeat apply conj.
  - intros t Ht Hne.
    assert (Hd : direct_token h config = JStr t).
    { unfold direct_token. rewrite Ht. apply or_first.
      now apply truthy_nonempty. }
    rewrite credentials_direct; rewrite Hd;
      [ reflexivity | now apply truthy_nonempty ].
  - intros t Hc He Hne.
    assert (Hd : direct_token h config = JStr t).
    { unfold direct_token. rewrite He. apply or_second; [ exact Hc | ].
      now apply truthy_nonempty. }
    rewrite credentials_direct; rewrite Hd;
      [ reflexivity | now apply truthy_nonempty ].
  - intros path content tokenJson bearer Hc He Hfile Hread Hparse Hget Hb.
    rewrite credentials_from_file.
    + rewrite (token_file_named _ _ _ Hfile). cbn [Js.toString].
      unfold loadTokenFromFile, bind, lift, ret.
      rewrite Hread, Hparse, Hget, Hb. cbn [negb fst]. now rewrite Hb.
    + unfold direct_token. now rewrite or_falsy.
    + rewrite (token_file_named _ _ _ Hfile).
      apply truthy_nonempty, Hfile.
  - intros path content fields Hc He Hfile Hread Hparse Hlookup.
    split; [ | right; eauto ].
    rewrite credentials_from_file.
    + rewrite (token_file_named _ _ _ Hfile). cbn [Js.toString].
      unfold loadTokenFromFile, bind, lift, throw.
      rewrite Hread, Hparse. cbn [Js.get]. rewrite Hlookup. reflexivity.
    + unfold direct_token. now rewrite or_falsy.
    + rewrite (token_file_named _ _ _ Hfile).
      apply truthy_nonempty, Hfile.
  - intros Hc He Hf Hfe. split; [ | left; reflexivity ].
    rewrite credentials_missing; [ reflexivity | | ].
    + unfold direct_token. now rewrite or_falsy.
    + unfold token_file_name. now rewrite or_falsy.
Qed.

Lemma credentials_resolution_order_witness :
  fst (getAndValidateCredentials (Sample.host Sample.no_env Sample.unreachable)
         Sample.config initial) = Ok (mkCredentials (JStr "tok")) /\
  fst (getAndValidateCredentials
         (Sample.host Sample.env_token Sample.unreachable)
         Sample.no_config initial) = Ok (mkCredentials (JStr "envtok")) /\
  fst (getAndValidateCredentials
         (Sample.host (Sample.env_file "/home/u/token.json")
            Sample.unreachable)
         Sample.no_config initial) = Ok (mkCredentials (JStr "abc")) /\
  fst (getAndValidateCredentials
         (Sample.host (Sample.env_file "/home/u/empty.json")
            Sample.unreachable)
         Sample.no_config initial) =
    Throw (JsError (no_bearer_token_message "/home/u/empty.json")) /\
  fst (getAndValidateCredentials (Sample.host Sample.no_env Sample.unreachable)
         Sample.no_config initial) = Throw (JsError missing_token_message).
Proof.
  repeat apply conj.
  - apply (proj1 (credentials_resolution_order
                    (Sample.host Sample.no_env Sample.unreachable)
                    Sample.config initial) "tok");
      [ reflexivity | discriminate ].
  - apply (proj1 (proj2 (credentials_resolution_order
                    (Sample.host Sample.env_token Sample.unreachable)
                    Sample.no_config initial)) "envtok");
      [ reflexivity | reflexivity | discriminate ].
  - apply (proj1 (proj2 (proj2 (credentials_resolution_order
                    (Sample.host (Sample.env_file "/home/u/token.json")
                       Sample.unreachable)
                    Sample.no_config initial)))
             "/home/u/token.json" Sample.token_file
             (JObj [("bearer_token", JStr "abc")]) (JStr "abc"));
      try reflexivity.
    split; [ discriminate | right; split; reflexivity ].
  - apply (proj1 (proj2 (proj2 (proj2 (credentials_resolution_order
                    (Sample.host (Sample.env_file "/home/u/empty.json")
                       Sample.unreachable)
                    Sample.no_config initial))))
             "/home/u/empty.json" "{}" []);
      try reflexivity.
    split; [ discriminate | right; split; reflexivity ].
  - apply (proj2 (proj2 (proj2 (proj2 (credentials_resolution_order
                    (Sample.host Sample.no_env Sample.unreachable)
                    Sample.no_config initial)))));
      reflexivity.
Defined.

(** ** getById *)

Lemma getById_on_failure h config sandboxId st creds e :
  fst (getAndValidateCredentials h config st) = Ok creds ->
  response_outcome
    (fetch h (describe_request h (cred_token creds) sandboxId)) = Throw e ->
  namespace.getById h config sandboxId st =
  (if namespace.mentions_404 e then Ok None
   else Throw (JsError ("Failed to get Namespace instance: "
                        ++ Js.describe e)),
   with_request (describe_request h (cred_token creds) sandboxId) st).
Proof.
  intros Hcreds Hout. apply credentials_resolved in Hcreds.
  unfold namespace.getById. rewrite (bind_ok _ _ _ _ _ Hcreds).
  unfold try_catch. unfold bind at 1. rewrite fetchNamespace_eq.
  fold (describe_request h (cred_token creds) sandboxId). rewrite Hout.
  now destruct (namespace.mentions_404 e).
Qed.

Lemma getById_without_instance h config sandboxId st creds data :
  fst (getAndValidateCredentials h config st) = Ok creds ->
  response_outcome
    (fetch h (describe_request h (cred_token creds) sandboxId)) = Ok data ->
  Js.truthy (Js.get_opt (Js.get_opt data "metadata") "instanceId") = false ->
  namespace.getById h config sandboxId st =
  (Throw (JsError "Failed to get Namespace instance: Instance data is missing from Namespace response"),
   with_request (describe_request h (cred_token creds) sandboxId) st).
Proof.
  intros Hcreds Hout Hid. apply credentials_resolved in Hcreds.
  unfold namespace.getById. rewrite (bind_ok _ _ _ _ _ Hcreds).
  unfold try_catch. unfold bind at 1. rewrite fetchNamespace_eq.
  fold (describe_request h (cred_token creds) sandboxId). rewrite Hout.
  destruct (response_outcome_ok _ _ Hout) as (Hnn & _).
  unfold bind, lift. rewrite (get_not_nullish _ "metadata" Hnn), Hid.
  reflexivity.
Qed.

Lemma http_404_outcome r :
  http_404 r ->
  exists text,
    response_outcome r = Throw (JsError ("Namespace API error: 404 " ++ text)).
Proof.
  intros (response & -> & Hok & Hstatus). exists (statusText response).
  unfold response_outcome. now rewrite Hok, Hstatus.
Qed.

Lemma mentions_404_api_error text :
  Js.includes "404" text = true ->
  namespace.mentions_404 (JsError ("Namespace API error: " ++ text)) = true.
Proof. intros H. cbn [namespace.mentions_404]. now apply includes_app_r. Qed.

(** C4, as stated, fails: a response with status 200 whose [error] field
    reads "limit of 404 instances reached" is not an HTTP 404, yet [getById]
    answers [null] instead of raising. *)
Lemma getById_hides_more_than_http_404 :
  ~ getById_only_hides_http_404
      (Sample.host Sample.no_env
         (Sample.replies
            (JObj [("error", JStr "limit of 404 instances reached")])))
      Sample.config "i-1" initial.
Proof.
  intros H. destruct (H (mkCredentials (JStr "tok")) eq_refl) as [_ Hraise].
  destruct (Hraise _ eq_refl) as (e & st' & Hrun).
  - intros (response & Heq & Hok & _). injection Heq as <-. discriminate Hok.
  - vm_compute in Hrun. discriminate Hrun.
Qed.

(** C4, amended: [getById] answers [null] when the remote call fails with
    HTTP 404.  A failure of the remote call whose message does not contain
    "404" (or that is not an [Error]) is raised to the caller, wrapped as
    "Failed to get Namespace instance: ...", and so is a response without an
    instance identifier; a failure to resolve the credentials is raised as
    it is. *)
Theorem getById_null_on_404_else_raises h config sandboxId st :
  (forall creds,
     fst (getAndValidateCredentials h config st) = Ok creds ->
     let rq := describe_request h (cred_token creds) sandboxId in
     (http_404 (fetch h rq) ->
      namespace.getById h config sandboxId st =
      (Ok None, with_request rq st)) /\
     (forall e,
        response_outcome (fetch h rq) = Throw e ->
        namespace.mentions_404 e = false ->
        namespace.getById h config sandboxId st =
        (Throw (JsError ("Failed to get Namespace instance: "
                         ++ Js.describe e)),
         with_request rq st)) /\
     (forall data,
        response_outcome (fetch h rq) = Ok data ->
        Js.truthy (Js.get_opt (Js.get_opt data "metadata") "instanceId")
        = false ->
        raises (namespace.getById h config sandboxId) st)) /\
  (forall e,
     fst (getAndValidateCredentials h config st) = Throw e ->
     namespace.getById h config sandboxId st = (Throw e, st)).
Proof.
  split.
  - intros creds Hcreds rq. repeat apply conj.
    + intros H404. destruct (http_404_outcome _ H404) as (text & Hout).
      rewrite (getById_on_failure _ _ _ _ _ _ Hcreds Hout).
      assert (Hm : namespace.mentions_404
                     (JsError ("Namespace API error: 404 " ++ text)) = true)
        by (apply (mentions_404_api_error ("404 " ++ text)); reflexivity).
      now rewrite Hm.
    + intros e Hout Hno.
      rewrite (getById_on_failure _ _ _ _ _ _ Hcreds Hout). now rewrite Hno.
    + intros data Hout Hid. do 2 eexists.
      apply (getById_without_instance _ _ _ _ _ _ Hcreds Hout Hid).
  - intros e Hfail. apply credentials_rejected in Hfail.
    unfold namespace.getById. now rewrite (bind_throw _ _ _ _ _ Hfail).
Qed.

Lemma getById_null_on_404_else_raises_witness :
  namespace.getById
    (Sample.host Sample.no_env (Sample.fails_with 404 "Not Found"))
    Sample.config "i-1" initial =
  (Ok None,
   with_request
     (describe_request
        (Sample.host Sample.no_env (Sample.fails_with 404 "Not Found"))
        (JStr "tok") "i-1")
     initial) /\
  namespace.getById
    (Sample.host Sample.no_env (Sample.fails_with 500 "Internal Server Error"))
    Sample.config "i-1" initial =
  (Throw (JsError "Failed to get Namespace instance: Namespace API error: 500 Internal Server Error"),
   with_request
     (describe_request
        (Sample.host Sample.no_env
           (Sample.fails_with 500 "Internal Server Error"))
        (JStr "tok") "i-1")
     initial) /\
  namespace.getById (Sample.host Sample.no_env Sample.unreachable)
    Sample.no_config "i-1" initial =
  (Throw (JsError missing_token_message), initial).
Proof.
  repeat apply conj.
  - apply (proj1 (proj1 (getById_null_on_404_else_raises
                    (Sample.host Sample.no_env
                       (Sample.fails_with 404 "Not Found"))
                    Sample.config "i-1" initial)
                   (mkCredentials (JStr "tok")) eq_refl)).
    eexists. repeat split; reflexivity.
  - apply (proj1 (proj2 (proj1 (getById_null_on_404_else_raises
                    (Sample.host Sample.no_env
                       (Sample.fails_with 500 "Internal Server Error"))
                    Sample.config "i-1" initial)
                   (mkCredentials (JStr "tok")) eq_refl))
             (JsError "Namespace API error: 500 Internal Server Error"));
      reflexivity.
  - apply (proj2 (getById_null_on_404_else_raises
                    (Sample.host Sample.no_env Sample.unreachable)
                    Sample.no_config "i-1" initial)).
    reflexivity.
Defined.

(** C10: the not-found test of [getById] is a substring test on the message
    of the caught [Error].  Whatever failed inside the [try], if its message
    contains "404" the call answers [null]; that includes a response with a
    success status whose [error] field is a text containing "404". *)
Theorem getById_null_on_any_404_message h config sandboxId st creds :
  fst (getAndValidateCredentials h config st) = Ok creds ->
  let rq := describe_request h (cred_token creds) sandboxId in
  (forall message,
     response_outcome (fetch h rq) = Throw (JsError message) ->
     Js.includes "404" message = true ->
     namespace.getById h config sandboxId st = (Ok None, with_request rq st)) /\
  (forall response data text,
     fetch h rq = Ok response ->
     ok response = true ->
     json response = Ok data ->
     Js.get data "error" = Ok (JStr text) ->
     Js.includes "404" text = true ->
     namespace.getById h config sandboxId st = (Ok None, with_request rq st)).
Proof.
  intros Hcreds rq. split.
  - intros message Hout H404.
    rewrite (getById_on_failure _ _ _ _ _ _ Hcreds Hout).
    cbn [namespace.mentions_404]. now rewrite H404.
  - intros response data text Hfetch Hok Hjson Herror H404.
    assert (Htruthy : Js.truthy (JStr text) = true).
    { destruct text; [ discriminate H404 | reflexivity ]. }
    assert (Hout : response_outcome (fetch h rq) =
                   Throw (JsError ("Namespace API error: " ++ text))).
    { unfold response_outcome. fold rq in Hfetch.
      rewrite Hfetch, Hok, Hjson, Herror, Htruthy. reflexivity. }
    rewrite (getById_on_failure _ _ _ _ _ _ Hcreds Hout).
    now rewrite (mentions_404_api_error text H404).
Qed.

Lemma getById_null_on_any_404_message_witness :
  namespace.getById
    (Sample.host Sample.no_env
       (Sample.replies
          (JObj [("error", JStr "limit of 404 instances reached")])))
    Sample.config "i-1" initial =
  (Ok None,
   with_request
     (describe_request
        (Sample.host Sample.no_env
           (Sample.replies
              (JObj [("error", JStr "limit of 404 instances reached")])))
        (JStr "tok") "i-1")
     initial).
Proof.
  apply (proj2 (getById_null_on_any_404_message
                  (Sample.host Sample.no_env
                     (Sample.replies
                        (JObj [("error",
                                JStr "limit of 404 instances reached")])))
                  Sample.config "i-1" initial (mkCredentials (JStr "tok"))
                  eq_refl)
           (mkResponse true 200 "OK"
              (Ok (JObj [("error", JStr "limit of 404 instances reached")])))
           (JObj [("error", JStr "limit of 404 instances reached")])
           "limit of 404 instances reached");
    reflexivity.
Defined.

(** ** list *)

Lemma get_truthy v k :
  Js.truthy (Js.get_opt v k) = true -> Js.get v k = Ok (Js.get_opt v k).
Proof. destruct v; cbn; intros; congruence. Qed.

Lemma list_keep_eq entry st :
  present entry -> namespace.list_keep entry st = (Ok (carries_id entry), st).
Proof.
  intros Hp. unfold namespace.list_keep, carries_id, bind, lift, ret.
  rewrite !(get_not_nullish _ _ Hp).
  now destruct (Js.truthy (Js.get_opt entry "instanceId")).
Qed.

Lemma Array_filter_list_keep entries st :
  Forall present entries ->
  namespace.Array_filter namespace.list_keep entries st =
  (Ok (filter carries_id entries), st).
Proof.
  induction 1 as [ | entry rest Hp _ IH]; [ reflexivity | ].
  cbn [namespace.Array_filter filter].
  rewrite (bind_ok _ _ _ _ _ (list_keep_eq _ st Hp)).
  rewrite (bind_ok _ _ _ _ _ IH). reflexivity.
Qed.

Lemma list_entry_eq config token entry st :
  present entry -> carries_id entry = true ->
  namespace.list_entry config token entry st =
  (Ok (canonical config token entry), st).
Proof.
  intros Hp Hid. unfold namespace.list_entry, canonical, id_of, Js.or.
  unfold carries_id in Hid. unfold bind, lift, ret.
  rewrite !(get_not_nullish _ _ Hp).
  destruct (Js.truthy (Js.get_opt entry "instanceId")); [ reflexivity | ].
  cbn [orb] in Hid. now rewrite (get_truthy _ _ Hid).
Qed.

Lemma Array_map_list_entry config token entries st :
  Forall present entries ->
  Forall (fun entry => carries_id entry = true) entries ->
  namespace.Array_map (namespace.list_entry config token) entries st =
  (Ok (map (canonical config token) entries), st).
Proof.
  induction 1 as [ | entry rest Hp _ IH]; intros Hids; [ reflexivity | ].
  inversion Hids as [ | ? ? Hid Hrest]; subst.
  cbn [namespace.Array_map map].
  rewrite (bind_ok _ _ _ _ _ (list_entry_eq config token _ st Hp Hid)).
  rewrite (bind_ok _ _ _ _ _ (IH Hrest)). reflexivity.
Qed.

Lemma Forall_filter {A} (P : A -> Prop) f xs :
  Forall P xs -> Forall P (filter f xs).
Proof.
  induction 1 as [ | x rest Hx _ IH]; cbn; [ constructor | ].
  destruct (f x); [ now constructor | exact IH ].
Qed.

Lemma filter_all_true {A} (f : A -> bool) xs :
  Forall (fun x => f x = true) (filter f xs).
Proof.
  induction xs as [ | x rest IH]; cbn; [ constructor | ].
  destruct (f x) eqn:Hx; [ now constructor | exact IH ].
Qed.

(** C6, as stated, fails: the callbacks of [filter] and [map] read
    [instanceData.instanceId] unguarded, so on the response
    [{instances: [null, {instanceId: "a"}]}] the call raises "Failed to list
    Namespace instances: Cannot read properties of null (reading
    'instanceId')" instead of leaving the first entry out and returning the
    record of the second. *)
Lemma list_raises_on_null_entry :
  ~ list_answers_every_response
      (Sample.host Sample.no_env
         (Sample.replies
            (JObj [("instances",
                    JArr [JNull; JObj [("instanceId", JStr "a")]])])))
      Sample.config initial.
Proof.
  intros H.
  specialize (H (mkCredentials (JStr "tok"))
                (JObj [("instances",
                        JArr [JNull; JObj [("instanceId", JStr "a")]])])
                [JNull; JObj [("instanceId", JStr "a")]]
                eq_refl eq_refl eq_refl).
  vm_compute in H. discriminate H.
Qed.

(** C6, amended: of the entries of a list response, none of them [null] or
    [undefined], those with no truthy identifier at [instanceId] or at
    [metadata.instanceId] are left out, and each of the others gives exactly
    one canonical record, in the order of the response; a response without
    entries gives the empty list and no error. *)
Theorem list_keeps_identified_entries h config st creds data entries :
  fst (getAndValidateCredentials h config st) = Ok creds ->
  response_outcome (fetch h (list_request h (cred_token creds))) = Ok data ->
  lists data entries ->
  Forall present entries ->
  namespace.list h config st =
  (Ok (map (canonical config (cred_token creds)) (filter carries_id entries)),
   with_request (list_request h (cred_token creds)) st) /\
  (entries = [] -> fst (namespace.list h config st) = Ok []).
Proof.
  intros Hcreds Hout Hlists Hpresent.
  assert (Hrun : namespace.list h config st =
    (Ok (map (canonical config (cred_token creds))
           (filter carries_id entries)),
     with_request (list_request h (cred_token creds)) st)).
  { apply credentials_resolved in Hcreds.
    unfold namespace.list. rewrite (bind_ok _ _ _ _ _ Hcreds).
    unfold try_catch. unfold bind at 1. rewrite fetchNamespace_eq.
    fold (list_request h (cred_token creds)). rewrite Hout.
    unfold lists in Hlists. rewrite Hlists.
    rewrite (bind_ok _ _ _ _ _
               (Array_filter_list_keep entries _ Hpresent)).
    rewrite Array_map_list_entry;
      [ reflexivity | now apply Forall_filter | apply filter_all_true ]. }
  split; [ exact Hrun | ].
  intros ->. now rewrite Hrun.
Qed.

Lemma list_keeps_identified_entries_witness :
  fst (namespace.list
         (Sample.host Sample.no_env
            (Sample.replies
               (JObj
                  [("instances",
                    JArr
                      [JObj [("instanceId", JStr "a")];
                       JObj [("extendedMetadata", JObj [])];
                       JObj [("metadata",
                              JObj [("instanceId", JStr "b")])]])])))
         Sample.config initial) =
  Ok [canonical Sample.config (JStr "tok") (JObj [("instanceId", JStr "a")]);
      canonical Sample.config (JStr "tok")
        (JObj [("metadata", JObj [("instanceId", JStr "b")])])].
Proof.
  destruct (list_keeps_identified_entries
              (Sample.host Sample.no_env
                 (Sample.replies
                    (JObj
                       [("instances",
                         JArr
                           [JObj [("instanceId", JStr "a")];
                            JObj [("extendedMetadata", JObj [])];
                            JObj [("metadata",
                                   JObj [("instanceId", JStr "b")])]])])))
              Sample.config initial (mkCredentials (JStr "tok"))
              (JObj
                 [("instances",
                   JArr
                     [JObj [("instanceId", JStr "a")];
                      JObj [("extendedMetadata", JObj [])];
                      JObj [("metadata", JObj [("instanceId", JStr "b")])]])])
              [JObj [("instanceId", JStr "a")];
               JObj [("extendedMetadata", JObj [])];
               JObj [("metadata", JObj [("instanceId", JStr "b")])]])
    as [Hrun _];
    [ reflexivity | reflexivity | reflexivity
    | repeat constructor | ].
  rewrite Hrun. reflexivity.
Defined.

(** ** Base64 *)

(** The decoder on the test vectors of RFC 4648, and on input a strict
    decoder would refuse: missing padding, white space, foreign characters. *)
Example base64_rfc4648_vectors h :
  map (Buffer_base64_toString h)
    ["Zg=="; "Zm8="; "Zm9v"; "Zm9vYg=="; "Zm9vYmE="; "Zm9vYmFy"] =
  ["f"; "fo"; "foo"; "foob"; "fooba"; "foobar"].
Proof. reflexivity. Qed.

Example base64_is_lenient h :
  map (Buffer_base64_toString h) ["aGVsbG8"; "aGVs bG8="; "a*G*V*s"; "!!!!"] =
  ["hello"; "hello"; "hel"; ""].
Proof. reflexivity. Qed.

(** ** runCommand *)

Lemma runCommand_eq h sandbox command options st :
  Js.truthy (NamespaceSandbox.commandServiceEndpoint sandbox) = true ->
  let rq :=
    command_request h sandbox (namespace.fullCommand h command options) in
  namespace.runCommand h sandbox command options st =
  match response_outcome (fetch h rq) with
  | Ok result =>
      (Ok (mkCommandResult
             (namespace.decodeBase64 h (Js.get_opt result "stdout"))
             (namespace.decodeBase64 h (Js.get_opt result "stderr"))
             (Js.coalesce (Js.get_opt result "exitCode") (JNum 0))
             (Date_now h (S (ticks st)) - Date_now h (ticks st))),
       tick (with_request rq (tick st)))
  | Throw e =>
      (Throw (JsError ("Namespace command execution failed: "
                       ++ Js.describe e)),
       with_request rq (tick st))
  end.
Proof.
  intros Hendpoint rq. unfold namespace.runCommand. rewrite Hendpoint.
  cbn [negb]. unfold bind at 1, now at 1. unfold try_catch.
  unfold bind at 1. rewrite fetchNamespace_eq.
  fold (command_request h sandbox (namespace.fullCommand h command options)).
  fold rq.
  destruct (response_outcome (fetch h rq)) as [result | e] eqn:Hout;
    [ | reflexivity ].
  destruct (response_outcome_ok _ _ Hout) as (Hnn & _).
  unfold bind, lift, now, ret. rewrite !(get_not_nullish _ _ Hnn).
  reflexivity.
Qed.

(** C7: when the response omits the exit code the result has [exitCode = 0];
    a non-zero exit code comes back as data in a normal result; a failure of
    the remote call is raised again as a CommandExecutionError that carries
    the original message. *)
Theorem runCommand_exit_code_and_failures h sandbox command options st :
  Js.truthy (NamespaceSandbox.commandServiceEndpoint sandbox) = true ->
  let rq :=
    command_request h sandbox (namespace.fullCommand h command options) in
  (forall result,
     response_outcome (fetch h rq) = Ok result ->
     Js.nullish (Js.get_opt result "exitCode") = true ->
     exists r st',
       namespace.runCommand h sandbox command options st = (Ok r, st') /\
       exitCode r = JNum 0) /\
  (forall result n,
     response_outcome (fetch h rq) = Ok result ->
     Js.get_opt result "exitCode" = JNum n -> n <> 0%Z ->
     exists r st',
       namespace.runCommand h sandbox command options st = (Ok r, st') /\
       exitCode r = JNum n) /\
  (forall e,
     response_outcome (fetch h rq) = Throw e ->
     exists st',
       namespace.runCommand h sandbox command options st =
       (Throw (JsError ("Namespace command execution failed: "
                        ++ Js.describe e)), st') /\
       CommandExecutionError
         (JsError ("Namespace command execution failed: "
                   ++ Js.describe e))).
Proof.
  intros Hendpoint rq.
  pose proof (runCommand_eq h sandbox command options st Hendpoint) as Hrun.
  cbv zeta in Hrun. fold rq in Hrun. repeat apply conj.
  - intros result Hout Hmissing. rewrite Hout in Hrun.
    do 2 eexists. split; [ exact Hrun | ].
    cbn [exitCode]. unfold Js.coalesce. now rewrite Hmissing.
  - intros result n Hout Hcode _. rewrite Hout in Hrun.
    do 2 eexists. split; [ exact Hrun | ].
    cbn [exitCode]. now rewrite Hcode.
  - intros e Hout. rewrite Hout in Hrun.
    eexists. split; [ exact Hrun | ]. now exists (Js.describe e).
Qed.

Lemma runCommand_exit_code_and_failures_witness :
  (exists r st',
     namespace.runCommand
       (Sample.host Sample.no_env
          (Sample.replies (JObj [("stdout", JStr "aGVsbG8=")])))
       Sample.box "ls" undefined initial = (Ok r, st') /\
     exitCode r = JNum 0) /\
  (exists r st',
     namespace.runCommand
       (Sample.host Sample.no_env
          (Sample.replies (JObj [("exitCode", JNum 3)])))
       Sample.box "ls" undefined initial = (Ok r, st') /\
     exitCode r = JNum 3) /\
  (exists st',
     namespace.runCommand (Sample.host Sample.no_env Sample.unreachable)
       Sample.box "ls" undefined initial =
     (Throw (JsError "Namespace command execution failed: fetch failed"),
      st')).
Proof.
  repeat apply conj.
  - apply (proj1 (runCommand_exit_code_and_failures
                    (Sample.host Sample.no_env
                       (Sample.replies (JObj [("stdout", JStr "aGVsbG8=")])))
                    Sample.box "ls" undefined initial eq_refl)
             (JObj [("stdout", JStr "aGVsbG8=")]));
      reflexivity.
  - apply (proj1 (proj2 (runCommand_exit_code_and_failures
                    (Sample.host Sample.no_env
                       (Sample.replies (JObj [("exitCode", JNum 3)])))
                    Sample.box "ls" undefined initial eq_refl))
             (JObj [("exitCode", JNum 3)]) 3%Z);
      [ reflexivity | reflexivity | discriminate ].
  - destruct (proj2 (proj2 (runCommand_exit_code_and_failures
                    (Sample.host Sample.no_env Sample.unreachable)
                    Sample.box "ls" undefined initial eq_refl))
                (JsError "fetch failed") eq_refl)
      as (st' & Hrun & _).
    exists st'. exact Hrun.
Defined.

(** C2, as stated, fails: with [escapeShellArg] leaving plain words alone,
    the command "ls" is composed into "cd /tmp && FOO=bar ls", where the
    directory change comes first and the assignment after it. *)
Lemma runCommand_puts_cd_before_env :
  ~ env_then_cd_then_command (Sample.host Sample.no_env Sample.unreachable)
      "ls"
      (namespace.fullCommand (Sample.host Sample.no_env Sample.unreachable)
         "ls" (foo_bar_in_tmp undefined)).
Proof.
  intros (i & j & k & Hi & Hj & _ & Hij & _).
  vm_compute in Hi, Hj.
  destruct Hi as [<- | []]. destruct Hj as [<- | []]. lia.
Qed.

(** C2, amended: with [env = {FOO: "bar"}] and [cwd = "/tmp"] the string
    sent to the remote endpoint is the directory change, then [&&], then the
    assignment of the escaped value to [FOO], then the original command (the
    whole wrapped in [nohup ... &] when [background] is set). *)
Theorem runCommand_composes_cd_env_command
    h sandbox command background st :
  Js.truthy (NamespaceSandbox.commandServiceEndpoint sandbox) = true ->
  let composed :=
    "cd " ++ escapeShellArg h "/tmp" ++ " && "
    ++ "FOO=" ++ escapeShellArg h "bar" ++ " " ++ command in
  let sent :=
    match background with
    | def true => "nohup " ++ composed ++ " > /dev/null 2>&1 &"
    | _ => composed
    end in
  namespace.fullCommand h command (foo_bar_in_tmp background) = sent /\
  requests
    (snd (namespace.runCommand h sandbox command (foo_bar_in_tmp background)
            st)) =
  (requests st ++ [command_request h sandbox sent])%list.
Proof.
  intros Hendpoint composed sent.
  assert (Hfull : namespace.fullCommand h command (foo_bar_in_tmp background)
                  = sent).
  { unfold namespace.fullCommand, foo_bar_in_tmp, namespace.envPrefix.
    cbn. now destruct background as [ | | [ | ]]. }
  split; [ exact Hfull | ].
  rewrite (runCommand_eq h sandbox command _ st Hendpoint). rewrite Hfull.
  now destruct (response_outcome (fetch h _)).
Qed.

Lemma runCommand_composes_cd_env_command_witness :
  namespace.fullCommand (Sample.host Sample.no_env Sample.unreachable) "ls"
    (foo_bar_in_tmp undefined) = "cd /tmp && FOO=bar ls".
Proof.
  apply (proj1 (runCommand_composes_cd_env_command
                  (Sample.host Sample.no_env Sample.unreachable)
                  Sample.box "ls" undefined initial eq_refl)).
Defined.

(** C5: [stdout] and [stderr] are decoded independently of each other and
    "aGVsbG8=" decodes to "hello"; but a text that is not base64 is not
    handed back as it came.  [Buffer.from] does not throw on a string, so
    the fallback of [decodeBase64] is never taken for one: "!!!!" decodes to
    the empty string. *)
Theorem decodeBase64_does_not_fall_back_on_text h :
  namespace.decodeBase64 h (JStr "aGVsbG8=") = JStr "hello" /\
  namespace.decodeBase64 h (JStr "!!!!") = JStr "" /\
  (forall s, s <> "" ->
     namespace.decodeBase64 h (JStr s) = JStr (Buffer_base64_toString h s)) /\
  (forall sandbox command options st,
     Js.truthy (NamespaceSandbox.commandServiceEndpoint sandbox) = true ->
     forall result,
       response_outcome
         (fetch h (command_request h sandbox
                     (namespace.fullCommand h command options))) = Ok result ->
       exists r st',
         namespace.runCommand h sandbox command options st = (Ok r, st') /\
         stdout r = namespace.decodeBase64 h (Js.get_opt result "stdout") /\
         stderr r = namespace.decodeBase64 h (Js.get_opt result "stderr")).
Proof.
  repeat apply conj; try reflexivity.
  - intros s Hs. unfold namespace.decodeBase64. cbn.
    apply String.eqb_neq in Hs. now rewrite Hs.
  - intros sandbox command options st Hendpoint result Hout.
    pose proof (runCommand_eq h sandbox command options st Hendpoint) as Hrun.
    cbv zeta in Hrun. rewrite Hout in Hrun.
    do 2 eexists. split; [ exact Hrun | split; reflexivity ].
Qed.

Lemma decodeBase64_does_not_fall_back_on_text_witness :
  namespace.decodeBase64 (Sample.host Sample.no_env Sample.unreachable)
    (JStr "aGVsbA") =
  JStr (Buffer_base64_toString
          (Sample.host Sample.no_env Sample.unreachable) "aGVsbA") /\
  exists r st',
    namespace.runCommand
      (Sample.host Sample.no_env
         (Sample.replies
            (JObj [("stdout", JStr "!!!!"); ("stderr", JStr "aGVsbG8=")])))
      Sample.box "ls" undefined initial = (Ok r, st') /\
    stdout r = JStr "" /\ stderr r = JStr "hello".
Proof.
  split.
  - apply (proj1 (proj2 (proj2 (decodeBase64_does_not_fall_back_on_text
                    (Sample.host Sample.no_env Sample.unreachable))))).
    discriminate.
  - destruct (proj2 (proj2 (proj2 (decodeBase64_does_not_fall_back_on_text
                (Sample.host Sample.no_env
                   (Sample.replies
                      (JObj [("stdout", JStr "!!!!");
                             ("stderr", JStr "aGVsbG8=")]))))))
                Sample.box "ls" undefined initial eq_refl
                (JObj [("stdout", JStr "!!!!"); ("stderr", JStr "aGVsbG8=")])
                eq_refl)
      as (r & st' & Hrun & Hout & Herr).
    exists r, st'. split; [ exact Hrun | split ].
    + rewrite Hout. reflexivity.
    + rewrite Herr. reflexivity.
Defined.

(** ** create *)

Lemma create_requests h config options st creds :
  fst (getAndValidateCredentials h config st) = Ok creds ->
  requests (snd (namespace.create h config options st)) =
  (requests st ++
   [create_request h config options (cred_token creds)
      (Date_now h (ticks st))])%list.
Proof.
  intros Hcreds. apply credentials_resolved in Hcreds.
  unfold namespace.create. rewrite (bind_ok _ _ _ _ _ Hcreds).
  unfold try_catch. unfold bind at 1, now at 1. unfold bind at 1.
  rewrite fetchNamespace_eq.
  fold (create_request h config options (cred_token creds)
          (Date_now h (ticks st))).
  destruct (response_outcome (fetch h _)) as [data | e] eqn:Hout;
    [ | reflexivity ].
  destruct (response_outcome_ok _ _ Hout) as (Hnn & _).
  unfold bind, lift. rewrite !(get_not_nullish _ _ Hnn).
  destruct (Js.truthy (Js.get_opt (Js.get_opt data "metadata") "instanceId"))
    eqn:Hid; [ | reflexivity ].
  cbn [negb]. rewrite (get_truthy _ _ Hid). reflexivity.
Qed.

(** C9: in the request [create] sends, the image reference falls back to
    "ubuntu:latest" only when [options.image] is [undefined] or [null]; an
    image given as the empty string is sent as the empty string.  The
    machine shape, the purpose and the container name fall back to their
    defaults on any falsy configuration value, the empty string and zero
    included. *)
Theorem create_image_default_only_when_absent h config options st creds :
  fst (getAndValidateCredentials h config st) = Ok creds ->
  let requestBody :=
    namespace.create_requestBody h config options
      (or_string (NamespaceConfig.targetContainerName config) "main-container")
      (Date_now h (ticks st)) in
  requests (snd (namespace.create h config options st)) =
  (requests st ++
   [request_of (cred_token creds) API_ENDPOINTS.CREATE_INSTANCE
      (post (JSON_stringify h requestBody)) JUndefined])%list /\
  (forall image,
     opt_field options CreateSandboxOptions.image = def image ->
     container_field requestBody "image_ref" = JStr image) /\
  (opt_field options CreateSandboxOptions.image = def "" ->
   container_field requestBody "image_ref" = JStr "") /\
  (image_absent options ->
   container_field requestBody "image_ref" = JStr "ubuntu:latest") /\
  (NamespaceConfig.virtualCpu config = def 0%Z ->
   shape_field requestBody "virtual_cpu" = JNum 2) /\
  (NamespaceConfig.memoryMegabytes config = def 0%Z ->
   shape_field requestBody "memory_megabytes" = JNum 4096) /\
  (NamespaceConfig.machineArch config = def "" ->
   shape_field requestBody "machine_arch" = JStr "amd64") /\
  (NamespaceConfig.os config = def "" ->
   shape_field requestBody "os" = JStr "linux") /\
  (NamespaceConfig.documentedPurpose config = def "" ->
   Js.get_opt requestBody "documented_purpose" = JStr "ComputeSDK sandbox") /\
  (NamespaceConfig.targetContainerName config = def "" ->
   container_field requestBody "name" = JStr "main-container").
Proof.
  intros Hcreds requestBody. repeat apply conj.
  - apply (create_requests h config options st creds Hcreds).
  - intros image Himage. subst requestBody.
    unfold namespace.create_requestBody, container_field, container_of.
    cbn. now rewrite Himage.
  - intros Himage. subst requestBody.
    unfold namespace.create_requestBody, container_field, container_of.
    cbn. now rewrite Himage.
  - intros [Himage | Himage]; subst requestBody;
      unfold namespace.create_requestBody, container_field, container_of;
      cbn; now rewrite Himage.
  - intros H. subst requestBody. cbn. now rewrite H.
  - intros H. subst requestBody. cbn. now rewrite H.
  - intros H. subst requestBody. cbn. now rewrite H.
  - intros H. subst requestBody. cbn. now rewrite H.
  - intros H. subst requestBody. cbn. now rewrite H.
  - intros H. subst requestBody. cbn. now rewrite H.
Qed.

Lemma create_image_default_only_when_absent_witness :
  container_field
    (namespace.create_requestBody
       (Sample.host Sample.no_env Sample.unreachable) Sample.config
       (def (CreateSandboxOptions.mk (def "") undefined))
       "main-container" 1700000000000)
    "image_ref" = JStr "" /\
  container_field
    (namespace.create_requestBody
       (Sample.host Sample.no_env Sample.unreachable) Sample.config
       undefined "main-container" 1700000000000)
    "image_ref" = JStr "ubuntu:latest".
Proof.
  split.
  - apply (proj1 (proj2 (proj2 (create_image_default_only_when_absent
                    (Sample.host Sample.no_env Sample.unreachable)
                    Sample.config
                    (def (CreateSandboxOptions.mk (def "") undefined))
                    initial (mkCredentials (JStr "tok")) eq_refl)))).
    reflexivity.
  - apply (proj1 (proj2 (proj2 (proj2 (create_image_default_only_when_absent
                    (Sample.host Sample.no_env Sample.unreachable)
                    Sample.config undefined
                    initial (mkCredentials (JStr "tok")) eq_refl))))).
    left. reflexivity.
Defined.

(** ** runCode and getUrl *)

(** C8: whatever the sandbox record and the arguments, [runCode] and
    [getUrl] fail at once with an UnsupportedOperationError; no request is
    sent and nothing else changes. *)
Theorem runCode_and_getUrl_are_unsupported
    (Runtime CodeResult : Type) sandbox code (runtime : opt Runtime)
    config urlOptions st :
  (@namespace.runCode Runtime CodeResult sandbox code runtime config st =
     (Throw (JsError namespace.runCode_message), st) /\
   UnsupportedOperationError (JsError namespace.runCode_message)) /\
  (namespace.getUrl sandbox urlOptions st =
     (Throw (JsError namespace.getUrl_message), st) /\
   UnsupportedOperationError (JsError namespace.getUrl_message)).
Proof.
  unfold UnsupportedOperationError. repeat split; auto.
Qed.

(** * Further properties *)

(** ** Credentials *)

(** X1: resolving credentials sends no request, logs nothing and does not
    read the clock, and a token it returns is never empty. *)
Theorem credentials_leave_no_trace h config st :
  snd (getAndValidateCredentials h config st) = st /\
  (forall creds,
     fst (getAndValidateCredentials h config st) = Ok creds ->
     Js.truthy (cred_token creds) = true).
Proof.
  split; [ apply getAndValidateCredentials_state | ].
  intros creds.
  destruct (Js.truthy (direct_token h config)) eqn:Hd.
  - rewrite (credentials_direct _ _ _ Hd). cbn. now intros [= <-].
  - destruct (Js.truthy (token_file_name h config)) eqn:Hf.
    + rewrite (credentials_from_file _ _ _ Hd Hf).
      destruct (loadTokenFromFile h _ st) as [[bearer | e] st'];
        [ | discriminate ].
      destruct (Js.truthy bearer) eqn:Hb; [ | discriminate ].
      cbn. now intros [= <-].
    + rewrite (credentials_missing _ _ _ Hd Hf). discriminate.
Qed.

Lemma credentials_leave_no_trace_witness :
  Js.truthy (JStr "abc") = true.
Proof.
  apply (proj2 (credentials_leave_no_trace
                  (Sample.host (Sample.env_file "/home/u/token.json")
                     Sample.unreachable)
                  Sample.no_config initial)
           (mkCredentials (JStr "abc"))).
  reflexivity.
Defined.

(** X2: when the resolver falls back to a token file, a failure to read the
    file and a failure to parse it are raised as they are, and a
    [bearer_token] that is present but falsy (the empty string, [null]) is
    refused like a missing one. *)
Theorem token_file_failures h config st path :
  empty (Js.of_opt_string (NamespaceConfig.token config)) ->
  empty (env_var h "NSC_TOKEN") ->
  names_token_file h config path ->
  let result := fst (getAndValidateCredentials h config st) in
  (forall e, fs_readFile h path = Throw e -> result = Throw e) /\
  (forall content e,
     fs_readFile h path = Ok content -> JSON_parse h content = Throw e ->
     result = Throw e) /\
  (forall content tokenJson bearer,
     fs_readFile h path = Ok content ->
     JSON_parse h content = Ok tokenJson ->
     Js.get tokenJson "bearer_token" = Ok bearer ->
     Js.truthy bearer = false ->
     result = Throw (JsError (no_bearer_token_message path))).
Proof.
  intros Hc He Hfile result. unfold empty in *.
  assert (Hrun : getAndValidateCredentials h config st =
    match loadTokenFromFile h path st with
    | (Ok bearer, st') =>
        if Js.truthy bearer then (Ok (mkCredentials bearer), st')
        else (Throw (JsError missing_token_message), st')
    | (Throw e, st') => (Throw e, st')
    end).
  { rewrite credentials_from_file.
    - now rewrite (token_file_named _ _ _ Hfile).
    - unfold direct_token. now rewrite or_falsy.
    - rewrite (token_file_named _ _ _ Hfile).
      apply truthy_nonempty, Hfile. }
  subst result. rewrite Hrun. unfold loadTokenFromFile, bind, lift, throw.
  repeat apply conj.
  - intros e ->. reflexivity.
  - intros content e -> ->. reflexivity.
  - intros content tokenJson bearer -> -> -> ->. reflexivity.
Qed.

Lemma token_file_failures_witness :
  fst (getAndValidateCredentials broken_files_host
         (file_config "/t/missing.json") initial) =
    Throw (JsError "ENOENT: no such file or directory") /\
  fst (getAndValidateCredentials broken_files_host
         (file_config "/t/garbled.json") initial) =
    Throw (JsError "Unexpected token in JSON") /\
  fst (getAndValidateCredentials broken_files_host
         (file_config "/t/blank.json") initial) =
    Throw (JsError (no_bearer_token_message "/t/blank.json")).
Proof.
  repeat apply conj.
  - destruct (token_file_failures broken_files_host
                (file_config "/t/missing.json") initial "/t/missing.json")
      as (Hread & _);
      [ reflexivity | reflexivity
      | split; [ discriminate | left; reflexivity ] | ].
    apply Hread. reflexivity.
  - destruct (token_file_failures broken_files_host
                (file_config "/t/garbled.json") initial "/t/garbled.json")
      as (_ & Hparse & _);
      [ reflexivity | reflexivity
      | split; [ discriminate | left; reflexivity ] | ].
    apply (Hparse "not json"); reflexivity.
  - destruct (token_file_failures broken_files_host
                (file_config "/t/blank.json") initial "/t/blank.json")
      as (_ & _ & Hblank);
      [ reflexivity | reflexivity
      | split; [ discriminate | left; reflexivity ] | ].
    apply (Hblank "blank" (JObj [("bearer_token", JStr "")]) (JStr ""));
      reflexivity.
Defined.

(** ** Transport *)

(** X3: whatever happens, [fetchNamespace] hands exactly one request to
    [fetch] and touches nothing else; data it returns is never [undefined]
    or [null] and never carries a truthy [error] field. *)
Theorem fetchNamespace_sends_once_returns_clean_data
    h token endpoint options baseUrl st :
  let rq := request_of token endpoint options baseUrl in
  snd (fetchNamespace h token endpoint options baseUrl st) =
    with_request rq st /\
  (forall data,
     fst (fetchNamespace h token endpoint options baseUrl st) = Ok data ->
     Js.nullish data = false /\
     Js.truthy (Js.get_opt data "error") = false).
Proof.
  intros rq. rewrite fetchNamespace_eq. fold rq. split; [ reflexivity | ].
  cbn [fst]. intros data Hout.
  destruct (response_outcome_ok _ _ Hout) as (Hnn & error & Hget & Hfalsy).
  split; [ exact Hnn | ].
  rewrite (get_not_nullish _ _ Hnn) in Hget. now injection Hget as ->.
Qed.

Lemma fetchNamespace_sends_once_returns_clean_data_witness :
  Js.nullish (JObj [("error", JStr ""); ("instances", JArr [])]) = false /\
  Js.truthy
    (Js.get_opt (JObj [("error", JStr ""); ("instances", JArr [])]) "error")
  = false.
Proof.
  apply (proj2 (fetchNamespace_sends_once_returns_clean_data
                  (Sample.host Sample.no_env
                     (Sample.replies
                        (JObj [("error", JStr ""); ("instances", JArr [])])))
                  (JStr "tok") API_ENDPOINTS.LIST_INSTANCES (post "{}")
                  JUndefined initial)).
  reflexivity.
Defined.

(** X4: the error channel of [fetchNamespace].  A rejected [fetch] and an
    unreadable body are raised as they are; a non-success status is raised
    with the status code and text whatever the body holds; a truthy [error]
    field in a success response is raised with its text; a body that is
    [null] is a [TypeError]. *)
Theorem fetchNamespace_error_channel h token endpoint options baseUrl st :
  let rq := request_of token endpoint options baseUrl in
  let result := fst (fetchNamespace h token endpoint options baseUrl st) in
  (forall e, fetch h rq = Throw e -> result = Throw e) /\
  (forall response,
     fetch h rq = Ok response -> ok response = false ->
     result = Throw (JsError ("Namespace API error: "
                              ++ Js.of_Z (status response) ++ " "
                              ++ statusText response))) /\
  (forall response e,
     fetch h rq = Ok response -> ok response = true ->
     json response = Throw e -> result = Throw e) /\
  (forall response data,
     fetch h rq = Ok response -> ok response = true ->
     json response = Ok data ->
     Js.truthy (Js.get_opt data "error") = true ->
     result = Throw (JsError ("Namespace API error: "
                              ++ Js.toString (Js.get_opt data "error")))) /\
  (forall response,
     fetch h rq = Ok response -> ok response = true ->
     json response = Ok JNull ->
     result =
     Throw (JsError "Cannot read properties of null (reading 'error')")).
Proof.
  intros rq result. subst result. rewrite fetchNamespace_eq. fold rq.
  cbn [fst]. unfold response_outcome. repeat apply conj.
  - intros e ->. reflexivity.
  - intros response -> ->. reflexivity.
  - intros response e -> -> ->. reflexivity.
  - intros response data -> -> -> Herr.
    rewrite (get_truthy _ _ Herr), Herr. reflexivity.
  - intros response -> -> ->. reflexivity.
Qed.

Lemma fetchNamespace_error_channel_witness :
  fst (fetchNamespace
         (Sample.host Sample.no_env (Sample.fails_with 503 "Unavailable"))
         (JStr "tok") API_ENDPOINTS.LIST_INSTANCES (post "{}") JUndefined
         initial) =
    Throw (JsError "Namespace API error: 503 Unavailable") /\
  fst (fetchNamespace
         (Sample.host Sample.no_env
            (Sample.replies (JObj [("error", JStr "quota exceeded")])))
         (JStr "tok") API_ENDPOINTS.LIST_INSTANCES (post "{}") JUndefined
         initial) =
    Throw (JsError "Namespace API error: quota exceeded").
Proof.
  split.
  - apply (proj1 (proj2 (fetchNamespace_error_channel
                    (Sample.host Sample.no_env
                       (Sample.fails_with 503 "Unavailable"))
                    (JStr "tok") API_ENDPOINTS.LIST_INSTANCES (post "{}")
                    JUndefined initial))
             (mkResponse false 503 "Unavailable"
                (Throw (JsError "no body"))));
      reflexivity.
  - apply (proj1 (proj2 (proj2 (proj2 (fetchNamespace_error_channel
                    (Sample.host Sample.no_env
                       (Sample.replies
                          (JObj [("error", JStr "quota exceeded")])))
                    (JStr "tok") API_ENDPOINTS.LIST_INSTANCES (post "{}")
                    JUndefined initial))))
             (mkResponse true 200 "OK"
                (Ok (JObj [("error", JStr "quota exceeded")])))
             (JObj [("error", JStr "quota exceeded")]));
      reflexivity.
Defined.

Lemma header_value_assign1 key k v base :
  header_value key (Js.assign1 k v base) =
  if k =? key then Some v else header_value key base.
Proof.
  induction base as [ | [k0 v0] rest IH]; cbn; [ reflexivity | ].
  destruct (k0 =? k) eqn:Hk0; cbn.
  - apply String.eqb_eq in Hk0 as ->.
    now destruct (k =? key).
  - rewrite IH. destruct (k0 =? key) eqn:Hkey, (k =? key) eqn:Hk;
      try reflexivity.
    apply String.eqb_eq in Hkey, Hk. subst.
    rewrite String.eqb_refl in Hk0. discriminate Hk0.
Qed.

Lemma header_value_spread key base extra :
  header_value key (Js.spread base extra) =
  match last_value key extra with
  | Some v => Some v
  | None => header_value key base
  end.
Proof.
  unfold Js.spread. revert base.
  induction extra as [ | [k v] rest IH]; intros base; cbn; [ reflexivity | ].
  rewrite IH, header_value_assign1.
  now destruct (last_value key rest), (k =? key).
Qed.

(** X5: the headers of a request are merged last write wins.  A header the
    caller passes in [options.headers] replaces the default of the same
    name, the last of several entries counting; otherwise the request
    carries [Content-Type: application/json] and [Authorization: Bearer]
    followed by the token. *)
Theorem request_headers_last_write_wins token endpoint options baseUrl key :
  header_value key (headers (request_of token endpoint options baseUrl)) =
  match last_value key (RequestInit.headers options) with
  | Some v => Some v
  | None =>
      if "Content-Type" =? key then Some "application/json"
      else if "Authorization" =? key
           then Some ("Bearer " ++ Js.toString token)
           else None
  end.
Proof.
  unfold request_of. cbn [headers]. now rewrite header_value_spread.
Qed.

(** ** create and getById, case by case *)

Lemma create_eq h config options st creds :
  fst (getAndValidateCredentials h config st) = Ok creds ->
  let rq :=
    create_request h config options (cred_token creds)
      (Date_now h (ticks st)) in
  namespace.create h config options st =
  match response_outcome (fetch h rq) with
  | Throw e =>
      (Throw (JsError ("Failed to create Namespace instance: "
                       ++ Js.describe e)),
       with_request rq (tick st))
  | Ok data =>
      if Js.truthy (Js.get_opt (Js.get_opt data "metadata") "instanceId")
      then
        (Ok (record_of (cred_token creds)
               (or_string (NamespaceConfig.targetContainerName config)
                  "main-container")
               (DateOfMs (Date_now h (S (ticks st)))) data),
         tick (with_request rq (tick st)))
      else
        (Throw (JsError ("Failed to create Namespace instance: "
                         ++ ("Instance ID is undefined. Full response object: "
                             ++ JSON_stringify_indented h data))),
         with_request rq (tick st))
  end.
Proof.
  intros Hcreds rq. apply credentials_resolved in Hcreds.
  unfold namespace.create. rewrite (bind_ok _ _ _ _ _ Hcreds).
  unfold try_catch. unfold bind at 1, now at 1. unfold bind at 1.
  rewrite fetchNamespace_eq.
  fold (create_request h config options (cred_token creds)
          (Date_now h (ticks st))). fold rq.
  destruct (response_outcome (fetch h rq)) as [data | e] eqn:Hout;
    [ | reflexivity ].
  destruct (response_outcome_ok _ _ Hout) as (Hnn & _).
  unfold bind, lift. rewrite !(get_not_nullish _ _ Hnn).
  destruct (Js.truthy (Js.get_opt (Js.get_opt data "metadata") "instanceId"))
    eqn:Hid; [ | reflexivity ].
  cbn [negb]. rewrite (get_truthy _ _ Hid). reflexivity.
Qed.

Lemma getById_eq h config sandboxId st creds :
  fst (getAndValidateCredentials h config st) = Ok creds ->
  let rq := describe_request h (cred_token creds) sandboxId in
  namespace.getById h config sandboxId st =
  (match response_outcome (fetch h rq) with
   | Throw e =>
       if namespace.mentions_404 e then Ok None
       else Throw (JsError ("Failed to get Namespace instance: "
                            ++ Js.describe e))
   | Ok data =>
       if Js.truthy (Js.get_opt (Js.get_opt data "metadata") "instanceId")
       then
         Ok (Some
               (record_of (cred_token creds)
                  (or_string (NamespaceConfig.targetContainerName config)
                     "main-container")
                  (namespace.created_at (Js.get_opt data "metadata")) data))
       else
         Throw (JsError "Failed to get Namespace instance: Instance data is missing from Namespace response")
   end,
   with_request rq st).
Proof.
  intros Hcreds rq.
  destruct (response_outcome (fetch h rq)) as [data | e] eqn:Hout.
  - destruct (Js.truthy (Js.get_opt (Js.get_opt data "metadata")
                           "instanceId")) eqn:Hid.
    + apply credentials_resolved in Hcreds.
      unfold namespace.getById. rewrite (bind_ok _ _ _ _ _ Hcreds).
      unfold try_catch. unfold bind at 1. rewrite fetchNamespace_eq.
      fold (describe_request h (cred_token creds) sandboxId). fold rq.
      rewrite Hout.
      destruct (response_outcome_ok _ _ Hout) as (Hnn & _).
      unfold bind, lift. rewrite !(get_not_nullish _ _ Hnn), Hid.
      cbn [negb]. rewrite (get_truthy _ _ Hid). reflexivity.
    + apply (getById_without_instance _ _ _ _ _ _ Hcreds Hout Hid).
  - apply (getById_on_failure _ _ _ _ _ _ Hcreds Hout).
Qed.

(** X6: when the response names an instance, [create] returns its record:
    the identifier, the name "instance-" followed by it, the command
    endpoint of the response if there is one, the resolved token, the
    configured container name (or "main-container") and the time of the
    second clock reading; it has sent one request and read the clock
    twice. *)
Theorem create_returns_the_record h config options st creds data :
  fst (getAndValidateCredentials h config st) = Ok creds ->
  let rq :=
    create_request h config options (cred_token creds)
      (Date_now h (ticks st)) in
  response_outcome (fetch h rq) = Ok data ->
  Js.truthy (Js.get_opt (Js.get_opt data "metadata") "instanceId") = true ->
  namespace.create h config options st =
  (Ok (record_of (cred_token creds)
         (or_string (NamespaceConfig.targetContainerName config)
            "main-container")
         (DateOfMs (Date_now h (S (ticks st)))) data),
   tick (with_request rq (tick st))).
Proof.
  intros Hcreds rq Hout Hid.
  pose proof (create_eq h config options st creds Hcreds) as Hrun.
  cbv zeta in Hrun. fold rq in Hrun. now rewrite Hout, Hid in Hrun.
Qed.

Lemma create_returns_the_record_witness :
  fst (namespace.create
         (Sample.host Sample.no_env
            (Sample.replies
               (JObj [("metadata", JObj [("instanceId", JStr "i-9")]);
                      ("extendedMetadata",
                       JObj [("commandServiceEndpoint",
                              JStr "https://cmd.example")])])))
         Sample.config undefined initial) =
  Ok (mkEntry
        (NamespaceSandbox.mk (JStr "i-9") "instance-i-9"
           (JStr "https://cmd.example") (JStr "tok") "main-container"
           (DateOfMs 1700000000007))
        (JStr "i-9")).
Proof.
  rewrite (create_returns_the_record
             (Sample.host Sample.no_env
                (Sample.replies
                   (JObj [("metadata", JObj [("instanceId", JStr "i-9")]);
                          ("extendedMetadata",
                           JObj [("commandServiceEndpoint",
                                  JStr "https://cmd.example")])])))
             Sample.config undefined initial (mkCredentials (JStr "tok"))
             (JObj [("metadata", JObj [("instanceId", JStr "i-9")]);
                    ("extendedMetadata",
                     JObj [("commandServiceEndpoint",
                            JStr "https://cmd.example")])]));
    reflexivity.
Defined.

(** X7: every failure inside [create] is raised again with the prefix
    "Failed to create Namespace instance: " and the original message kept: a
    failed remote call (an HTTP 404 included, which [create] does not turn
    into [null]) and a response without an instance identifier, whose
    message quotes the whole response. *)
Theorem create_failures_are_wrapped h config options st creds :
  fst (getAndValidateCredentials h config st) = Ok creds ->
  let rq :=
    create_request h config options (cred_token creds)
      (Date_now h (ticks st)) in
  (forall e,
     response_outcome (fetch h rq) = Throw e ->
     namespace.create h config options st =
     (Throw (JsError ("Failed to create Namespace instance: "
                      ++ Js.describe e)),
      with_request rq (tick st))) /\
  (forall data,
     response_outcome (fetch h rq) = Ok data ->
     Js.truthy (Js.get_opt (Js.get_opt data "metadata") "instanceId")
     = false ->
     namespace.create h config options st =
     (Throw (JsError ("Failed to create Namespace instance: "
                      ++ ("Instance ID is undefined. Full response object: "
                          ++ JSON_stringify_indented h data))),
      with_request rq (tick st))).
Proof.
  intros Hcreds rq.
  pose proof (create_eq h config options st creds Hcreds) as Hrun.
  cbv zeta in Hrun. fold rq in Hrun. split.
  - intros e Hout. now rewrite Hout in Hrun.
  - intros data Hout Hid. now rewrite Hout, Hid in Hrun.
Qed.

Lemma create_failures_are_wrapped_witness :
  fst (namespace.create
         (Sample.host Sample.no_env (Sample.fails_with 404 "Not Found"))
         Sample.config undefined initial) =
  Throw (JsError "Failed to create Namespace instance: Namespace API error: 404 Not Found").
Proof.
  rewrite (proj1 (create_failures_are_wrapped
                    (Sample.host Sample.no_env
                       (Sample.fails_with 404 "Not Found"))
                    Sample.config undefined initial
                    (mkCredentials (JStr "tok")) eq_refl)
             (JsError "Namespace API error: 404 Not Found"));
    reflexivity.
Defined.

(** X8: when the response names an instance, [getById] returns its record
    without reading the clock; the creation time is the one the response
    gives in [metadata.createdAt], and the epoch when it gives none. *)
Theorem getById_returns_the_record h config sandboxId st creds data :
  fst (getAndValidateCredentials h config st) = Ok creds ->
  let rq := describe_request h (cred_token creds) sandboxId in
  response_outcome (fetch h rq) = Ok data ->
  Js.truthy (Js.get_opt (Js.get_opt data "metadata") "instanceId") = true ->
  let createdAt := Js.get_opt (Js.get_opt data "metadata") "createdAt" in
  namespace.getById h config sandboxId st =
  (Ok (Some
         (record_of (cred_token creds)
            (or_string (NamespaceConfig.targetContainerName config)
               "main-container")
            (if Js.truthy createdAt then DateOfValue createdAt
             else DateOfMs 0)
            data)),
   with_request rq st).
Proof.
  intros Hcreds rq Hout Hid createdAt.
  pose proof (getById_eq h config sandboxId st creds Hcreds) as Hrun.
  cbv zeta in Hrun. fold rq in Hrun. now rewrite Hout, Hid in Hrun.
Qed.

Lemma getById_returns_the_record_witness :
  fst (namespace.getById
         (Sample.host Sample.no_env
            (Sample.replies
               (JObj [("metadata", JObj [("instanceId", JStr "i-9")])])))
         Sample.config "i-9" initial) =
  Ok (Some
        (mkEntry
           (NamespaceSandbox.mk (JStr "i-9") "instance-i-9" JUndefined
              (JStr "tok") "main-container" (DateOfMs 0))
           (JStr "i-9"))).
Proof.
  rewrite (getById_returns_the_record
             (Sample.host Sample.no_env
                (Sample.replies
                   (JObj [("metadata", JObj [("instanceId", JStr "i-9")])])))
             Sample.config "i-9" initial (mkCredentials (JStr "tok"))
             (JObj [("metadata", JObj [("instanceId", JStr "i-9")])]));
    reflexivity.
Defined.

(** ** list, case by case *)

Lemma list_keep_absent entry st :
  Js.nullish entry = true ->
  namespace.list_keep entry st =
  (Throw (JsError ("Cannot read properties of " ++ Js.toString entry
                   ++ " (reading 'instanceId')")), st).
Proof. destruct entry; cbn; intros; try discriminate; reflexivity. Qed.

Lemma Array_filter_absent before entry after st :
  Forall present before -> Js.nullish entry = true ->
  namespace.Array_filter namespace.list_keep (before ++ entry :: after) st =
  (Throw (JsError ("Cannot read properties of " ++ Js.toString entry
                   ++ " (reading 'instanceId')")), st).
Proof.
  intros Hbefore Habsent.
  induction Hbefore as [ | x rest Hx _ IH]; cbn [app namespace.Array_filter].
  - now rewrite (bind_throw _ _ _ _ _ (list_keep_absent _ st Habsent)).
  - rewrite (bind_ok _ _ _ _ _ (list_keep_eq _ st Hx)).
    now rewrite (bind_throw _ _ _ _ _ IH).
Qed.

Lemma Array_filter_inv entries st kept st' :
  namespace.Array_filter namespace.list_keep entries st = (Ok kept, st') ->
  Forall present entries.
Proof.
  revert kept st'. induction entries as [ | x rest IH]; intros kept st' H.
  - constructor.
  - cbn [namespace.Array_filter] in H.
    destruct (Js.nullish x) eqn:Hx.
    + rewrite (bind_throw _ _ _ _ _ (list_keep_absent _ st Hx)) in H.
      discriminate H.
    + rewrite (bind_ok _ _ _ _ _ (list_keep_eq _ st Hx)) in H.
      unfold bind in H.
      destruct (namespace.Array_filter namespace.list_keep rest st)
        as [[kept' | e] st''] eqn:Hrest; [ | discriminate H ].
      constructor; [ exact Hx | exact (IH _ _ eq_refl) ].
Qed.

Lemma Array_filter_state entries st :
  snd (namespace.Array_filter namespace.list_keep entries st) = st.
Proof.
  induction entries as [ | x rest IH]; [ reflexivity | ].
  cbn [namespace.Array_filter].
  destruct (Js.nullish x) eqn:Hx.
  - now rewrite (bind_throw _ _ _ _ _ (list_keep_absent _ st Hx)).
  - rewrite (bind_ok _ _ _ _ _ (list_keep_eq _ st Hx)). unfold bind.
    destruct (namespace.Array_filter namespace.list_keep rest st)
      as [[kept | e] st']; exact IH.
Qed.

Lemma list_eq h config st creds :
  fst (getAndValidateCredentials h config st) = Ok creds ->
  let rq := list_request h (cred_token creds) in
  namespace.list h config st =
  (match response_outcome (fetch h rq) with
   | Throw e =>
       Throw (JsError ("Failed to list Namespace instances: "
                       ++ Js.describe e))
   | Ok data =>
       match Js.or (Js.get_opt data "instances") (JArr []) with
       | JArr entries =>
           match fst (namespace.Array_filter namespace.list_keep entries
                        (with_request rq st)) with
           | Ok kept =>
               Ok (map (canonical config (cred_token creds)) kept)
           | Throw e =>
               Throw (JsError ("Failed to list Namespace instances: "
                               ++ Js.describe e))
           end
       | _ =>
           Throw (JsError "Failed to list Namespace instances: instances.filter is not a function")
       end
   end,
   with_request rq st).
Proof.
  intros Hcreds rq. apply credentials_resolved in Hcreds.
  unfold namespace.list. rewrite (bind_ok _ _ _ _ _ Hcreds).
  unfold try_catch. unfold bind at 1. rewrite fetchNamespace_eq.
  fold (list_request h (cred_token creds)). fold rq.
  destruct (response_outcome (fetch h rq)) as [data | e]; [ | reflexivity ].
  destruct (Js.or (Js.get_opt data "instances") (JArr [])) as
    [ | | b | n | s | entries | fields]; try reflexivity.
  destruct (namespace.Array_filter namespace.list_keep entries
              (with_request rq st)) as [[kept | e] st'] eqn:Hfilter.
  - pose proof (Array_filter_inv _ _ _ _ Hfilter) as Hpresent.
    rewrite (Array_filter_list_keep _ _ Hpresent) in Hfilter.
    injection Hfilter as <- <-.
    rewrite (bind_ok _ _ _ _ _ (Array_filter_list_keep _ _ Hpresent)).
    rewrite Array_map_list_entry;
      [ reflexivity | now apply Forall_filter | apply filter_all_true ].
  - rewrite (bind_throw _ _ _ _ _ Hfilter). cbn [fst].
    assert (Hst : st' = with_request rq st).
    { pose proof (Array_filter_state entries (with_request rq st)) as Hs.
      now rewrite Hfilter in Hs. }
    now rewrite Hst.
Qed.

(** X9: a failure of the remote call is raised by [list] with the prefix
    "Failed to list Namespace instances: " and its message kept, an HTTP 404
    included; so is a response whose [instances] field is truthy but not an
    array. *)
Theorem list_failures_are_wrapped h config st creds :
  fst (getAndValidateCredentials h config st) = Ok creds ->
  let rq := list_request h (cred_token creds) in
  (forall e,
     response_outcome (fetch h rq) = Throw e ->
     namespace.list h config st =
     (Throw (JsError ("Failed to list Namespace instances: "
                      ++ Js.describe e)),
      with_request rq st)) /\
  (forall data,
     response_outcome (fetch h rq) = Ok data ->
     not_an_array (Js.or (Js.get_opt data "instances") (JArr [])) ->
     namespace.list h config st =
     (Throw (JsError "Failed to list Namespace instances: instances.filter is not a function"),
      with_request rq st)).
Proof.
  intros Hcreds rq. rewrite (list_eq h config st creds Hcreds). fold rq.
  split.
  - intros e ->. reflexivity.
  - intros data -> Hna.
    destruct (Js.or (Js.get_opt data "instances") (JArr []));
      try reflexivity.
    now elim (Hna xs).
Qed.

Lemma list_failures_are_wrapped_witness :
  fst (namespace.list
         (Sample.host Sample.no_env (Sample.fails_with 404 "Not Found"))
         Sample.config initial) =
    Throw (JsError "Failed to list Namespace instances: Namespace API error: 404 Not Found") /\
  fst (namespace.list
         (Sample.host Sample.no_env
            (Sample.replies (JObj [("instances", JStr "none")])))
         Sample.config initial) =
    Throw (JsError "Failed to list Namespace instances: instances.filter is not a function").
Proof.
  split.
  - rewrite (proj1 (list_failures_are_wrapped
                      (Sample.host Sample.no_env
                         (Sample.fails_with 404 "Not Found"))
                      Sample.config initial (mkCredentials (JStr "tok"))
                      eq_refl)
               (JsError "Namespace API error: 404 Not Found"));
      reflexivity.
  - rewrite (proj2 (list_failures_are_wrapped
                      (Sample.host Sample.no_env
                         (Sample.replies (JObj [("instances", JStr "none")])))
                      Sample.config initial (mkCredentials (JStr "tok"))
                      eq_refl)
               (JObj [("instances", JStr "none")]));
      [ reflexivity | reflexivity | intros xs; discriminate ].
Defined.

(** X10: one entry that is [null] or [undefined] makes the whole listing
    fail, whatever the other entries are: [list] raises the [TypeError] of
    the first such entry, wrapped, and returns no record. *)
Theorem list_fails_on_an_absent_entry
    h config st creds data before entry after :
  fst (getAndValidateCredentials h config st) = Ok creds ->
  response_outcome (fetch h (list_request h (cred_token creds))) = Ok data ->
  lists data (before ++ entry :: after) ->
  Forall present before ->
  Js.nullish entry = true ->
  namespace.list h config st =
  (Throw (JsError ("Failed to list Namespace instances: "
                   ++ ("Cannot read properties of " ++ Js.toString entry
                       ++ " (reading 'instanceId')"))),
   with_request (list_request h (cred_token creds)) st).
Proof.
  intros Hcreds Hout Hlists Hbefore Habsent.
  rewrite (list_eq h config st creds Hcreds). cbv zeta.
  unfold lists in Hlists. rewrite Hout, Hlists.
  now rewrite (Array_filter_absent before entry after _ Hbefore Habsent).
Qed.

Lemma list_fails_on_an_absent_entry_witness :
  fst (namespace.list
         (Sample.host Sample.no_env
            (Sample.replies
               (JObj [("instances",
                       JArr [JObj [("instanceId", JStr "a")]; JNull;
                             JObj [("instanceId", JStr "b")]])])))
         Sample.config initial) =
  Throw (JsError "Failed to list Namespace instances: Cannot read properties of null (reading 'instanceId')").
Proof.
  rewrite (list_fails_on_an_absent_entry
             (Sample.host Sample.no_env
                (Sample.replies
                   (JObj [("instances",
                           JArr [JObj [("instanceId", JStr "a")]; JNull;
                                 JObj [("instanceId", JStr "b")]])])))
             Sample.config initial (mkCredentials (JStr "tok"))
             (JObj [("instances",
                     JArr [JObj [("instanceId", JStr "a")]; JNull;
                           JObj [("instanceId", JStr "b")]])])
             [JObj [("instanceId", JStr "a")]] JNull
             [JObj [("instanceId", JStr "b")]]);
    [ reflexivity | reflexivity | reflexivity | reflexivity
    | repeat constructor | reflexivity ].
Defined.

(** ** What the three lookups have in common *)

Lemma well_formed_record_of token containerName createdAt data :
  Js.truthy (Js.get_opt (Js.get_opt data "metadata") "instanceId") = true ->
  well_formed token (record_of token containerName createdAt data).
Proof. intros H. repeat split. exact H. Qed.

Lemma well_formed_canonical config token entry :
  carries_id entry = true -> well_formed token (canonical config token entry).
Proof.
  intros H. repeat split. cbn. unfold id_of, Js.or, carries_id in *.
  destruct (Js.truthy (Js.get_opt entry "instanceId")) eqn:Htop;
    [ exact Htop | exact H ].
Qed.

(** X11: every record [create], [getById] and [list] hand to the caller has
    a truthy identifier, carries it as its [instanceId], is named
    "instance-" followed by it and holds the token the call resolved; a
    record with a missing or empty identifier is never returned. *)
Theorem returned_records_are_well_formed h config st creds :
  fst (getAndValidateCredentials h config st) = Ok creds ->
  (forall options entry st',
     namespace.create h config options st = (Ok entry, st') ->
     well_formed (cred_token creds) entry) /\
  (forall sandboxId entry st',
     namespace.getById h config sandboxId st = (Ok (Some entry), st') ->
     well_formed (cred_token creds) entry) /\
  (forall result st',
     namespace.list h config st = (Ok result, st') ->
     Forall (well_formed (cred_token creds)) result).
Proof.
  intros Hcreds. repeat apply conj.
  - intros options entry st'.
    rewrite (create_eq h config options st creds Hcreds).
    destruct (response_outcome (fetch h _)) as [data | e];
      [ | discriminate ].
    destruct (Js.truthy (Js.get_opt (Js.get_opt data "metadata")
                           "instanceId")) eqn:Hid; [ | discriminate ].
    intros [= <- _]. now apply well_formed_record_of.
  - intros sandboxId entry st'.
    rewrite (getById_eq h config sandboxId st creds Hcreds).
    destruct (response_outcome (fetch h _)) as [data | e].
    + destruct (Js.truthy (Js.get_opt (Js.get_opt data "metadata")
                             "instanceId")) eqn:Hid; [ | discriminate ].
      intros [= <- _]. now apply well_formed_record_of.
    + destruct (namespace.mentions_404 e); discriminate.
  - intros result st'. rewrite (list_eq h config st creds Hcreds).
    destruct (response_outcome (fetch h _)) as [data | e];
      [ | discriminate ].
    destruct (Js.or (Js.get_opt data "instances") (JArr []));
      try discriminate.
    destruct (namespace.Array_filter namespace.list_keep xs _)
      as [[kept | e] st''] eqn:Hfilter; cbn [fst]; [ | discriminate ].
    pose proof (Array_filter_inv _ _ _ _ Hfilter) as Hpresent.
    rewrite (Array_filter_list_keep _ _ Hpresent) in Hfilter.
    injection Hfilter as <- _. intros [= <- _].
    apply Forall_map.
    apply (Forall_impl _ (well_formed_canonical config (cred_token creds))).
    apply filter_all_true.
Qed.

Lemma returned_records_are_well_formed_witness :
  Forall (well_formed (JStr "tok"))
    [canonical Sample.config (JStr "tok") (JObj [("instanceId", JStr "a")])].
Proof.
  apply (proj2 (proj2 (returned_records_are_well_formed
                  (Sample.host Sample.no_env
                     (Sample.replies
                        (JObj [("instances",
                                JArr [JObj [("instanceId", JStr "a")];
                                      JObj []])])))
                  Sample.config initial (mkCredentials (JStr "tok"))
                  eq_refl))
           _
           (with_request
              (list_request
                 (Sample.host Sample.no_env
                    (Sample.replies
                       (JObj [("instances",
                               JArr [JObj [("instanceId", JStr "a")];
                                     JObj []])])))
                 (JStr "tok"))
              initial)).
  reflexivity.
Defined.

(** X12: a failure to resolve the credentials is raised by [create] and by
    [list] exactly as the resolver raised it, without the prefix of the
    method, before any request is sent and before the clock is read. *)
Theorem credential_failures_are_not_wrapped h config st e :
  fst (getAndValidateCredentials h config st) = Throw e ->
  (forall options, namespace.create h config options st = (Throw e, st)) /\
  namespace.list h config st = (Throw e, st).
Proof.
  intros Hfail. apply credentials_rejected in Hfail. split.
  - intros options. unfold namespace.create.
    now rewrite (bind_throw _ _ _ _ _ Hfail).
  - unfold namespace.list. now rewrite (bind_throw _ _ _ _ _ Hfail).
Qed.

Lemma credential_failures_are_not_wrapped_witness :
  namespace.list (Sample.host Sample.no_env Sample.unreachable)
    Sample.no_config initial =
  (Throw (JsError missing_token_message), initial).
Proof.
  apply (proj2 (credential_failures_are_not_wrapped
                  (Sample.host Sample.no_env Sample.unreachable)
                  Sample.no_config initial (JsError missing_token_message)
                  eq_refl)).
Defined.

(** X13: [getById] and [list] make a single attempt.  Whatever the remote
    system answers, each has handed exactly one request to [fetch] when it
    returns or raises, has logged nothing and has not read the clock. *)
Theorem lookups_send_one_request h config st creds :
  fst (getAndValidateCredentials h config st) = Ok creds ->
  (forall sandboxId,
     snd (namespace.getById h config sandboxId st) =
     with_request (describe_request h (cred_token creds) sandboxId) st) /\
  snd (namespace.list h config st) =
  with_request (list_request h (cred_token creds)) st.
Proof.
  intros Hcreds. split.
  - intros sandboxId.
    now rewrite (getById_eq h config sandboxId st creds Hcreds).
  - now rewrite (list_eq h config st creds Hcreds).
Qed.

Lemma lookups_send_one_request_witness :
  requests
    (snd (namespace.list
            (Sample.host Sample.no_env (Sample.fails_with 500 "Oops"))
            Sample.config initial)) =
  [list_request (Sample.host Sample.no_env (Sample.fails_with 500 "Oops"))
     (JStr "tok")].
Proof.
  rewrite (proj2 (lookups_send_one_request
                    (Sample.host Sample.no_env (Sample.fails_with 500 "Oops"))
                    Sample.config initial (mkCredentials (JStr "tok"))
                    eq_refl)).
  reflexivity.
Defined.

(** ** The creation request *)

(** X14: the request [create] sends asks for a deadline exactly one hour
    (3 600 000 ms) after the clock reading taken at the call, whatever the
    configuration; its one container runs [sleep infinity] and carries an
    [environment] only when [options.envs] has at least one entry. *)
Theorem create_request_deadline_and_container h config options st creds :
  fst (getAndValidateCredentials h config st) = Ok creds ->
  let requestBody :=
    namespace.create_requestBody h config options
      (or_string (NamespaceConfig.targetContainerName config) "main-container")
      (Date_now h (ticks st)) in
  requests (snd (namespace.create h config options st)) =
  (requests st ++
   [request_of (cred_token creds) API_ENDPOINTS.CREATE_INSTANCE
      (post (JSON_stringify h requestBody)) JUndefined])%list /\
  Js.get_opt requestBody "deadline" =
    JStr (Date_toISOString h (Date_now h (ticks st) + 3600000)) /\
  container_field requestBody "args" = JArr [JStr "sleep"; JStr "infinity"] /\
  (forall first rest,
     opt_field options CreateSandboxOptions.envs = def (first :: rest) ->
     container_field requestBody "environment" =
     Js.of_record (first :: rest)) /\
  (no_envs options ->
   container_field requestBody "environment" = JUndefined).
Proof.
  intros Hcreds requestBody. repeat apply conj.
  - apply (create_requests h config options st creds Hcreds).
  - reflexivity.
  - reflexivity.
  - intros first rest Henvs. subst requestBody.
    unfold namespace.create_requestBody, container_field, container_of.
    cbn. now rewrite Henvs.
  - unfold no_envs. intros Hnone. subst requestBody.
    unfold namespace.create_requestBody, container_field, container_of.
    cbn.
    destruct (opt_field options CreateSandboxOptions.envs) as [ | | [ | ? ?]];
      try reflexivity.
    destruct Hnone.
Qed.

Lemma create_request_deadline_and_container_witness :
  container_field
    (namespace.create_requestBody
       (Sample.host Sample.no_env Sample.unreachable) Sample.config
       (def (CreateSandboxOptions.mk undefined (def [("A", "1")])))
       "main-container" 1700000000000)
    "environment" = JObj [("A", JStr "1")] /\
  container_field
    (namespace.create_requestBody
       (Sample.host Sample.no_env Sample.unreachable) Sample.config
       (def (CreateSandboxOptions.mk undefined (def [])))
       "main-container" 1700000000000)
    "environment" = JUndefined.
Proof.
  split.
  - destruct (create_request_deadline_and_container
                (Sample.host Sample.no_env Sample.unreachable) Sample.config
                (def (CreateSandboxOptions.mk undefined (def [("A", "1")])))
                initial (mkCredentials (JStr "tok")) eq_refl)
      as (_ & _ & _ & Hgiven & _).
    apply (Hgiven ("A", "1") []). reflexivity.
  - destruct (create_request_deadline_and_container
                (Sample.host Sample.no_env Sample.unreachable) Sample.config
                (def (CreateSandboxOptions.mk undefined (def [])))
                initial (mkCredentials (JStr "tok")) eq_refl)
      as (_ & _ & _ & _ & Hnone).
    apply Hnone. exact I.
Defined.

(** X15: configuration values that are given and not falsy reach the
    creation request unchanged (CPU count, memory, architecture, operating
    system, purpose, container name), and values that are missing take the
    defaults 2, 4096, "amd64", "linux", "ComputeSDK sandbox" and
    "main-container". *)
Theorem create_passes_configuration_through h config options nowMs :
  let requestBody :=
    namespace.create_requestBody h config options
      (or_string (NamespaceConfig.targetContainerName config) "main-container")
      nowMs in
  (forall n, NamespaceConfig.virtualCpu config = def n -> n <> 0%Z ->
     shape_field requestBody "virtual_cpu" = JNum n) /\
  (forall n, NamespaceConfig.memoryMegabytes config = def n -> n <> 0%Z ->
     shape_field requestBody "memory_megabytes" = JNum n) /\
  (forall s, NamespaceConfig.machineArch config = def s -> s <> "" ->
     shape_field requestBody "machine_arch" = JStr s) /\
  (forall s, NamespaceConfig.os config = def s -> s <> "" ->
     shape_field requestBody "os" = JStr s) /\
  (forall s, NamespaceConfig.documentedPurpose config = def s -> s <> "" ->
     Js.get_opt requestBody "documented_purpose" = JStr s) /\
  (forall s, NamespaceConfig.targetContainerName config = def s -> s <> "" ->
     container_field requestBody "name" = JStr s) /\
  (NamespaceConfig.virtualCpu config = undefined ->
   NamespaceConfig.memoryMegabytes config = undefined ->
   NamespaceConfig.machineArch config = undefined ->
   NamespaceConfig.os config = undefined ->
   NamespaceConfig.documentedPurpose config = undefined ->
   NamespaceConfig.targetContainerName config = undefined ->
   shape_field requestBody "virtual_cpu" = JNum 2 /\
   shape_field requestBody "memory_megabytes" = JNum 4096 /\
   shape_field requestBody "machine_arch" = JStr "amd64" /\
   shape_field requestBody "os" = JStr "linux" /\
   Js.get_opt requestBody "documented_purpose" = JStr "ComputeSDK sandbox" /\
   container_field requestBody "name" = JStr "main-container").
Proof.
  assert (HZ : forall n, n <> 0%Z -> (n =? 0)%Z = false)
    by (intros n Hn; now apply Z.eqb_neq).
  assert (HS : forall s, s <> "" -> (s =? "") = false)
    by (intros s Hs; now apply String.eqb_neq).
  intros requestBody. subst requestBody.
  unfold shape_field, container_field, container_of.
  repeat apply conj.
  - intros n H Hn. cbn. rewrite H. cbn. now rewrite (HZ _ Hn).
  - intros n H Hn. cbn. rewrite H. cbn. now rewrite (HZ _ Hn).
  - intros s H Hs. cbn. rewrite H. cbn. now rewrite (HS _ Hs).
  - intros s H Hs. cbn. rewrite H. cbn. now rewrite (HS _ Hs).
  - intros s H Hs. cbn. rewrite H. cbn. now rewrite (HS _ Hs).
  - intros s H Hs. cbn. rewrite H. cbn. now rewrite (HS _ Hs).
  - intros H1 H2 H3 H4 H5 H6. cbn. rewrite H1, H2, H3, H4, H5, H6.
    repeat split.
Qed.

Lemma create_passes_configuration_through_witness :
  shape_field
    (namespace.create_requestBody
       (Sample.host Sample.no_env Sample.unreachable)
       (NamespaceConfig.mk (def "tok") undefined (def 8%Z) undefined
          (def "arm64") undefined undefined undefined undefined)
       undefined "main-container" 0)
    "virtual_cpu" = JNum 8 /\
  shape_field
    (namespace.create_requestBody
       (Sample.host Sample.no_env Sample.unreachable)
       (NamespaceConfig.mk (def "tok") undefined (def 8%Z) undefined
          (def "arm64") undefined undefined undefined undefined)
       undefined "main-container" 0)
    "machine_arch" = JStr "arm64".
Proof.
  destruct (create_passes_configuration_through
              (Sample.host Sample.no_env Sample.unreachable)
              (NamespaceConfig.mk (def "tok") undefined (def 8%Z) undefined
                 (def "arm64") undefined undefined undefined undefined)
              undefined 0%Z)
    as (Hcpu & _ & Harch & _).
  split.
  - apply (Hcpu 8%Z); [ reflexivity | discriminate ].
  - apply (Harch "arm64"); [ reflexivity | discriminate ].
Defined.

(** ** Running commands *)

(** X16: on a record without a command endpoint ([undefined], [null] or the
    empty string) [runCommand] fails at once with an
    UnsupportedOperationError: nothing is sent and the clock is not read. *)
Theorem runCommand_needs_an_endpoint h sandbox command options st :
  Js.truthy (NamespaceSandbox.commandServiceEndpoint sandbox) = false ->
  namespace.runCommand h sandbox command options st =
    (Throw (JsError namespace.no_endpoint_message), st) /\
  UnsupportedOperationError (JsError namespace.no_endpoint_message).
Proof.
  intros Hnone. unfold namespace.runCommand. rewrite Hnone. split.
  - reflexivity.
  - right. right. reflexivity.
Qed.

Lemma runCommand_needs_an_endpoint_witness :
  namespace.runCommand
    (Sample.host Sample.no_env (Sample.replies (JObj [])))
    (NamespaceSandbox.mk (JStr "i-1") "instance-i-1" JUndefined (JStr "tok")
       "main-container" (DateOfMs 0))
    "ls" undefined initial =
  (Throw (JsError namespace.no_endpoint_message), initial).
Proof.
  apply (proj1 (runCommand_needs_an_endpoint
                  (Sample.host Sample.no_env (Sample.replies (JObj [])))
                  (NamespaceSandbox.mk (JStr "i-1") "instance-i-1" JUndefined
                     (JStr "tok") "main-container" (DateOfMs 0))
                  "ls" undefined initial eq_refl)).
Defined.

(** X17: the command is sent as it is when no option applies: no options at
    all, or an [env] without entries, an empty [cwd] and a [background] that
    is not [true]. *)
Theorem fullCommand_of_plain_options h command options :
  plain options -> namespace.fullCommand h command options = command.
Proof.
  unfold plain, namespace.fullCommand. intros (Henv & Hcwd & Hbg).
  destruct (opt_field options RunCommandOptions.env) as [ | | [ | ? ?]];
    try destruct Henv;
    (destruct (opt_field options RunCommandOptions.cwd) as [ | | cwd];
     [ | | unfold or_string, or_default in Hcwd;
           destruct (cwd =? "") eqn:Hc;
           [ | cbn in Hcwd; subst cwd; discriminate Hc ] ];
     destruct (opt_field options RunCommandOptions.background)
       as [ | | [ | ]]; try reflexivity; now elim Hbg).
Qed.

Lemma fullCommand_of_plain_options_witness :
  namespace.fullCommand (Sample.host Sample.no_env Sample.unreachable)
    "ls -la"
    (def (RunCommandOptions.mk (def []) (def "") (def false))) = "ls -la".
Proof.
  apply (fullCommand_of_plain_options
           (Sample.host Sample.no_env Sample.unreachable) "ls -la"
           (def (RunCommandOptions.mk (def []) (def "") (def false)))).
  repeat split. discriminate.
Defined.

Lemma append_assoc (a b c : string) : (a ++ b) ++ c = a ++ (b ++ c).
Proof. induction a as [ | x a IH]; cbn; [ reflexivity | now rewrite IH ]. Qed.

Lemma append_empty_r (s : string) : s ++ "" = s.
Proof. induction s as [ | c s IH]; cbn; [ reflexivity | now rewrite IH ]. Qed.




(** X19: with a non-empty [env] and a non-empty [cwd] the string sent is
    the directory change with the escaped path, [&&], the assignments, a
    space and the command, wrapped in [nohup ... > /dev/null 2>&1 &] when
    [background] is [true]; the command itself is never rewritten. *)
Theorem fullCommand_with_env_and_cwd h command first rest cwd background :
  cwd <> "" ->
  namespace.fullCommand h command
    (def (RunCommandOptions.mk (def (first :: rest)) (def cwd) background)) =
  detached background
    ("cd " ++ escapeShellArg h cwd ++ " && "
     ++ namespace.envPrefix h (first :: rest) ++ " " ++ command).
Proof.
  intros Hcwd. apply String.eqb_neq in Hcwd.
  unfold namespace.fullCommand, detached. cbn [opt_field].
  cbn [RunCommandOptions.env RunCommandOptions.cwd
       RunCommandOptions.background].
  rewrite Hcwd. now destruct background as [ | | [ | ]].
Qed.

Lemma fullCommand_with_env_and_cwd_witness :
  namespace.fullCommand (Sample.host Sample.no_env Sample.unreachable)
    "make test"
    (def (RunCommandOptions.mk (def [("CI", "1"); ("NAME", "a b")])
            (def "/srv/app") (def true))) =
  "nohup cd /srv/app && CI=1 NAME='a b' make test > /dev/null 2>&1 &".
Proof.
  rewrite (fullCommand_with_env_and_cwd
             (Sample.host Sample.no_env Sample.unreachable) "make test"
             ("CI", "1") [("NAME", "a b")] "/srv/app" (def true));
    [ reflexivity | discriminate ].
Defined.

(** X20: whatever the options, the original command occurs unchanged in the
    string that is sent, and what follows it is either nothing or the
    redirection of a detached run. *)
Theorem fullCommand_keeps_the_command h command options :
  exists before after,
    namespace.fullCommand h command options = before ++ command ++ after /\
    (after = "" \/ after = " > /dev/null 2>&1 &") /\
    In (String.length before)
       (positions command (namespace.fullCommand h command options)).
Proof.
  assert (Hpos : forall before after,
            namespace.fullCommand h command options
            = before ++ command ++ after ->
            In (String.length before)
               (positions command (namespace.fullCommand h command options))).
  { intros before after Heq. apply positions_spec. eauto. }
  pose proof append_empty_r as Hnil.
  assert (Hsplit : exists before after,
            namespace.fullCommand h command options
            = before ++ command ++ after /\
            (after = "" \/ after = " > /dev/null 2>&1 &")).
  { unfold namespace.fullCommand.
    set (withEnv :=
           match opt_field options RunCommandOptions.env with
           | def ((_ :: _) as env) =>
               namespace.envPrefix h env ++ " " ++ command
           | _ => command
           end).
    assert (Henv : exists p, withEnv = p ++ command).
    { subst withEnv.
      destruct (opt_field options RunCommandOptions.env) as [ | | [ | kv e]];
        try (now exists "").
      exists (namespace.envPrefix h (kv :: e) ++ " ").
      now rewrite ?append_assoc. }
    destruct Henv as (p & Hp).
    set (withCwd :=
           match opt_field options RunCommandOptions.cwd with
           | def cwd =>
               if cwd =? "" then withEnv
               else "cd " ++ escapeShellArg h cwd ++ " && " ++ withEnv
           | _ => withEnv
           end).
    assert (Hc : exists q, withCwd = q ++ command).
    { subst withCwd.
      destruct (opt_field options RunCommandOptions.cwd) as [ | | cwd];
        try (now exists p).
      destruct (cwd =? ""); [ now exists p | ].
      exists (("cd " ++ escapeShellArg h cwd ++ " && ") ++ p).
      rewrite Hp. now rewrite ?append_assoc. }
    destruct Hc as (q & Hq).
    destruct (opt_field options RunCommandOptions.background)
      as [ | | [ | ]].
    - exists q, "". rewrite Hnil. auto.
    - exists q, "". rewrite Hnil. auto.
    - exists ("nohup " ++ q), " > /dev/null 2>&1 &". rewrite Hq.
      split; [ now rewrite ?append_assoc | auto ].
    - exists q, "". rewrite Hnil. auto. }
  destruct Hsplit as (before & after & Heq & Hafter).
  exists before, after. repeat split; [ exact Heq | exact Hafter | ].
  now apply (Hpos before after).
Qed.

(** X21: [runCommand] reads the clock just before the remote call and again
    after a successful one; the duration it reports is the difference of
    the two readings, so it is never negative on a clock that does not go
    back.  When the call fails the clock has been read once.  Either way
    exactly one request has been sent. *)
Theorem runCommand_measures_the_round_trip h sandbox command options st :
  Js.truthy (NamespaceSandbox.commandServiceEndpoint sandbox) = true ->
  let rq :=
    command_request h sandbox (namespace.fullCommand h command options) in
  (forall result,
     response_outcome (fetch h rq) = Ok result ->
     exists r,
       namespace.runCommand h sandbox command options st =
       (Ok r, tick (with_request rq (tick st))) /\
       durationMs r =
       (Date_now h (S (ticks st)) - Date_now h (ticks st))%Z /\
       (monotone_clock h -> (0 <= durationMs r)%Z)) /\
  (forall e,
     response_outcome (fetch h rq) = Throw e ->
     snd (namespace.runCommand h sandbox command options st) =
     with_request rq (tick st)).
Proof.
  intros Hendpoint rq.
  pose proof (runCommand_eq h sandbox command options st Hendpoint) as Hrun.
  cbv zeta in Hrun. fold rq in Hrun. split.
  - intros result Hout. rewrite Hout in Hrun.
    eexists. split; [ exact Hrun | ]. cbn [durationMs].
    split; [ reflexivity | ].
    intros Hclock. specialize (Hclock (ticks st)). lia.
  - intros e Hout. now rewrite Hout in Hrun; rewrite Hrun.
Qed.

Lemma runCommand_measures_the_round_trip_witness :
  exists r,
    namespace.runCommand
      (Sample.host Sample.no_env (Sample.replies (JObj [])))
      Sample.box "ls" undefined initial =
    (Ok r,
     tick (with_request
             (command_request
                (Sample.host Sample.no_env (Sample.replies (JObj [])))
                Sample.box "ls")
             (tick initial))) /\
    durationMs r = 7%Z /\ (0 <= durationMs r)%Z.
Proof.
  pose proof (runCommand_measures_the_round_trip
                (Sample.host Sample.no_env (Sample.replies (JObj [])))
                Sample.box "ls" undefined initial eq_refl) as H.
  cbv zeta in H. destruct H as [H _].
  specialize (H (JObj []) eq_refl).
  destruct H as (r & Hrun & Hduration & Hpositive).
  exists r. split; [ exact Hrun | split ].
  - rewrite Hduration. reflexivity.
  - apply Hpositive. intros n. unfold Sample.host. cbn [Date_now]. lia.
Defined.

(** X22: a response that gives no output and no exit code (the fields
    missing, [null] or empty) is a successful run with empty [stdout], empty
    [stderr] and exit code 0. *)
Theorem runCommand_on_an_empty_payload
    h sandbox command options st result :
  Js.truthy (NamespaceSandbox.commandServiceEndpoint sandbox) = true ->
  response_outcome
    (fetch h (command_request h sandbox
                (namespace.fullCommand h command options))) = Ok result ->
  Js.truthy (Js.get_opt result "stdout") = false ->
  Js.truthy (Js.get_opt result "stderr") = false ->
  Js.nullish (Js.get_opt result "exitCode") = true ->
  fst (namespace.runCommand h sandbox command options st) =
  Ok (mkCommandResult (JStr "") (JStr "") (JNum 0)
        (Date_now h (S (ticks st)) - Date_now h (ticks st))).
Proof.
  intros Hendpoint Hout Hstdout Hstderr Hcode.
  rewrite (runCommand_eq h sandbox command options st Hendpoint), Hout.
  unfold namespace.decodeBase64, Js.coalesce.
  now rewrite Hstdout, Hstderr, Hcode.
Qed.

Lemma runCommand_on_an_empty_payload_witness :
  fst (namespace.runCommand
         (Sample.host Sample.no_env
            (Sample.replies (JObj [("stdout", JStr ""); ("stderr", JNull)])))
         Sample.box "true" undefined initial) =
  Ok (mkCommandResult (JStr "") (JStr "") (JNum 0) 7).
Proof.
  rewrite (runCommand_on_an_empty_payload
             (Sample.host Sample.no_env
                (Sample.replies
                   (JObj [("stdout", JStr ""); ("stderr", JNull)])))
             Sample.box "true" undefined initial
             (JObj [("stdout", JStr ""); ("stderr", JNull)]));
    reflexivity.
Defined.

(** X23: a falsy payload is the empty string without any decoding; for a
    truthy payload that is not a string, [decodeBase64] hands back the raw
    value when [Buffer.from] throws and the decoded text when it does
    not. *)
Theorem decodeBase64_cases h data :
  (Js.truthy data = false -> namespace.decodeBase64 h data = JStr "") /\
  (forall e,
     Js.truthy data = true -> not_a_string data ->
     Buffer_from_nonstring h data = Throw e ->
     namespace.decodeBase64 h data = data) /\
  (forall text,
     Js.truthy data = true -> not_a_string data ->
     Buffer_from_nonstring h data = Ok text ->
     namespace.decodeBase64 h data = JStr text).
Proof.
  unfold namespace.decodeBase64, namespace.Buffer_from_base64_toString,
    not_a_string.
  repeat apply conj.
  - intros ->. reflexivity.
  - intros e -> Hns Hthrow. cbn [negb].
    destruct data; try (now rewrite Hthrow). now elim (Hns s).
  - intros text -> Hns Hok. cbn [negb].
    destruct data; try (now rewrite Hok). now elim (Hns s).
Qed.

Lemma decodeBase64_cases_witness :
  namespace.decodeBase64 (Sample.host Sample.no_env Sample.unreachable)
    (JNum 42) = JNum 42 /\
  namespace.decodeBase64 (Sample.host Sample.no_env Sample.unreachable)
    JNull = JStr "".
Proof.
  destruct (decodeBase64_cases
              (Sample.host Sample.no_env Sample.unreachable) (JNum 42))
    as (_ & Hraw & _).
  destruct (decodeBase64_cases
              (Sample.host Sample.no_env Sample.unreachable) JNull)
    as (Hfalsy & _).
  split.
  - apply (Hraw (JsError "The first argument must be of type string"));
      [ reflexivity | intros s; discriminate | reflexivity ].
  - apply Hfalsy. reflexivity.
Defined.

(** X24: a record returned by [create] is used by [runCommand] as it is.
    Without a command endpoint in the creation response the record cannot
    run commands at all; with one, the request goes to that endpoint, with
    the token resolved at creation (credentials are not resolved again),
    for the identifier and the container name the record holds, as
    [sh -c] of the composed command. *)
Theorem created_record_runs_commands
    h config createOptions st creds entry st1 command options :
  fst (getAndValidateCredentials h config st) = Ok creds ->
  namespace.create h config createOptions st = (Ok entry, st1) ->
  let endpoint := NamespaceSandbox.commandServiceEndpoint (sandbox entry) in
  (Js.truthy endpoint = false ->
   namespace.runCommand h (sandbox entry) command options st1 =
   (Throw (JsError namespace.no_endpoint_message), st1)) /\
  (Js.truthy endpoint = true ->
   let sent :=
     mkRequest
       (Js.toString endpoint ++ COMMAND_SERVICE.RUN_COMMAND_SYNC)
       "POST"
       [("Content-Type", "application/json");
        ("Authorization", "Bearer " ++ Js.toString (cred_token creds))]
       (JSON_stringify h
          (JObj
             [("instanceId", sandboxId entry);
              ("targetContainerName",
               JStr (or_string (NamespaceConfig.targetContainerName config)
                       "main-container"));
              ("command",
               JObj [("command",
                      JArr [JStr "sh"; JStr "-c";
                            JStr (namespace.fullCommand h command
                                    options)])])])) in
   requests (snd (namespace.runCommand h (sandbox entry) command options st1))
   = (requests st1 ++ [sent])%list).
Proof.
  intros Hcreds Hcreate endpoint.
  rewrite (create_eq h config createOptions st creds Hcreds) in Hcreate.
  destruct (response_outcome (fetch h _)) as [data | e];
    [ | discriminate Hcreate ].
  destruct (Js.truthy (Js.get_opt (Js.get_opt data "metadata") "instanceId"));
    [ | discriminate Hcreate ].
  injection Hcreate as <- <-. split.
  - intros Hnone. unfold namespace.runCommand. subst endpoint.
    now rewrite Hnone.
  - intros Hsome sent. subst sent.
    rewrite (runCommand_eq h _ command options _ Hsome).
    assert (Hrq :
      command_request h
        (sandbox
           (record_of (cred_token creds)
              (or_string (NamespaceConfig.targetContainerName config)
                 "main-container")
              (DateOfMs (Date_now h (S (ticks st)))) data))
        (namespace.fullCommand h command options) =
      mkRequest
        (Js.toString endpoint ++ COMMAND_SERVICE.RUN_COMMAND_SYNC) "POST"
        [("Content-Type", "application/json");
         ("Authorization", "Bearer " ++ Js.toString (cred_token creds))]
        (JSON_stringify h
           (JObj
              [("instanceId",
                Js.get_opt (Js.get_opt data "metadata") "instanceId");
               ("targetContainerName",
                JStr (or_string (NamespaceConfig.targetContainerName config)
                        "main-container"));
               ("command",
                JObj [("command",
                       JArr [JStr "sh"; JStr "-c";
                             JStr (namespace.fullCommand h command
                                     options)])])]))).
    { unfold command_request, request_of, namespace.runCommand_body.
      subst endpoint. cbn [sandbox record_of NamespaceSandbox.token
        NamespaceSandbox.commandServiceEndpoint NamespaceSandbox.instanceId
        NamespaceSandbox.targetContainerName] in Hsome |- *.
      destruct (Js.get_opt (Js.get_opt data "extendedMetadata")
                  "commandServiceEndpoint");
        try discriminate Hsome; reflexivity. }
    rewrite Hrq. cbn [sandboxId record_of].
    now destruct (response_outcome (fetch h _)).
Qed.

Lemma created_record_runs_commands_witness :
  namespace.runCommand
    (Sample.host Sample.no_env
       (Sample.replies
          (JObj [("metadata", JObj [("instanceId", JStr "i-9")])])))
    (NamespaceSandbox.mk (JStr "i-9") "instance-i-9" JUndefined (JStr "tok")
       "main-container" (DateOfMs 1700000000007))
    "ls" undefined
    (tick (with_request
             (create_request
                (Sample.host Sample.no_env
                   (Sample.replies
                      (JObj [("metadata", JObj [("instanceId", JStr "i-9")])])))
                Sample.config undefined (JStr "tok") 1700000000000)
             (tick initial))) =
  (Throw (JsError namespace.no_endpoint_message),
   tick (with_request
           (create_request
              (Sample.host Sample.no_env
                 (Sample.replies
                    (JObj [("metadata", JObj [("instanceId", JStr "i-9")])])))
              Sample.config undefined (JStr "tok") 1700000000000)
           (tick initial))).
Proof.
  destruct (created_record_runs_commands
              (Sample.host Sample.no_env
                 (Sample.replies
                    (JObj [("metadata", JObj [("instanceId", JStr "i-9")])])))
              Sample.config undefined initial (mkCredentials (JStr "tok"))
              (mkEntry
                 (NamespaceSandbox.mk (JStr "i-9") "instance-i-9" JUndefined
                    (JStr "tok") "main-container" (DateOfMs 1700000000007))
                 (JStr "i-9"))
              (tick (with_request
                       (create_request
                          (Sample.host Sample.no_env
                             (Sample.replies
                                (JObj [("metadata",
                                        JObj [("instanceId", JStr "i-9")])])))
                          Sample.config undefined (JStr "tok") 1700000000000)
                       (tick initial)))
              "ls" undefined)
    as (Hnone & _); [ reflexivity | reflexivity | ].
  apply Hnone. reflexivity.
Defined.
